(** * Audio Notatki (app.py): a shallow embedding and its properties

    The application is a Streamlit script that talks to two hosted services
    (OpenAI for transcription and embeddings, Qdrant for storage).  The
    script is embedded as state-passing code over a [World] that holds
    everything the script can read or write: the secret store, the process
    environment, the session state, the cached Qdrant client, the Qdrant
    server, the OpenAI provider and a chronological [trace] of the effects
    the script performs (rendered elements, session writes, API calls). *)

From Stdlib Require Import ZArith NArith Lia.
From Stdlib.Strings Require Import Byte.
From stdpp Require Import base option list gmap strings fin_maps sorting relations.

Local Open Scope string_scope.

(** ** Python values, exceptions and script control *)

(** A Python [float], kept as its binary64 bit pattern: the script only
    passes floats along (embedding components, similarity scores). *)
Definition float64 : Type := Z.

Definition bytes : Type := list Byte.byte.

#[global] Instance byte_eq_dec : EqDecision Byte.byte := Byte.byte_eq_dec.

(** The values the script keeps in [st.session_state]. *)
Inductive pyval : Type :=
  | PyNone
  | PyStr (s : string)
  | PyBytes (b : bytes).

#[global] Instance pyval_eq_dec : EqDecision pyval.
Proof. solve_decision. Defined.

(** Python truthiness ([if v:], [not v]). *)
Definition truthy (v : pyval) : bool :=
  match v with
  | PyNone => false
  | PyStr s => negb (String.eqb s EmptyString)
  | PyBytes b => match b with [] => false | _ :: _ => true end
  end.

(** Subclasses of [Exception] that can reach the script. *)
Inductive exn_class : Type :=
  | KeyError
  | ValueError
  | AttributeError
  | TypeError
  | ResponseHandlingException   (* qdrant_client: the server cannot be reached *)
  | UnexpectedResponse          (* qdrant_client: the server answered with an error status *)
  | OpenAIError.                (* openai: network, authentication, quota, ... *)

(** An exception object: its class and [str(e)]. *)
Record exn : Type := Exn { exn_cls : exn_class; exn_str : string }.

(** [st.stop()] and [st.rerun()] unwind the script with exceptions that
    derive from [BaseException], so [except Exception] does not catch them. *)
Inductive control : Type := StopScript | RerunScript.

Inductive outcome (A : Type) : Type :=
  | Ret (a : A)
  | Raise (e : exn)
  | Halt (c : control).
Arguments Ret {A} a.
Arguments Raise {A} e.
Arguments Halt {A} c.

(** Answer of a hosted service to one request. *)
Inductive result (A : Type) : Type :=
  | Ok (a : A)
  | Err (e : exn).
Arguments Ok {A} a.
Arguments Err {A} e.

(** ** The Qdrant server *)

Inductive Distance : Type := COSINE | EUCLID | DOT.

(** [PointStruct(id=..., vector=..., payload=...)]. *)
Record PointStruct : Type := mkPoint {
  point_id : N;
  point_vector : list float64;
  point_payload : gmap string string
}.

(** What the server keeps for a point, under the point's id. *)
Record Stored : Type := mkStored {
  stored_vector : list float64;
  stored_payload : gmap string string
}.

(** A collection: [VectorParams(size, distance)] and its points by id. *)
Record Collection : Type := mkCollection {
  coll_size : N;
  coll_distance : Distance;
  coll_points : gmap N Stored
}.

(** What [scroll] yields: [Record] objects, which carry no [score]. *)
Record QRecord : Type := mkRecord {
  record_id : N;
  record_payload : gmap string string
}.

(** What [search] yields: [ScoredPoint] objects. *)
Record ScoredPoint : Type := mkScored {
  scored_id : N;
  scored_score : float64;
  scored_payload : gmap string string
}.

(** The server: [srv_down = Some msg] when it cannot be reached (every
    request then raises with that message); its collections by name; and
    its similarity ranking, which orders all points of a collection by
    decreasing similarity to the query vector. *)
Record Server : Type := mkServer {
  srv_down : option string;
  srv_collections : gmap string Collection;
  srv_rank : list (N * Stored) -> list float64 -> list ScoredPoint
}.

(** [QdrantClient(url=..., api_key=...)]. *)
Record QdrantClient : Type := mkClient {
  client_url : option string;
  client_api_key : option string
}.

(** ** The OpenAI provider

    Both requests take the API key the client was built with; the provider
    decides the answer (transcript text, embedding vector, or an error). *)
Record Provider : Type := mkProvider {
  transcriptions_create : pyval -> bytes -> result string;
  embeddings_create : pyval -> string -> result (list float64)
}.

(** ** Effects, in the order the script performs them *)

Inductive qdrant_call : Type :=
  | CollectionExists (name : string)
  | CreateCollection (name : string) (size : N) (distance : Distance)
  | Count (name : string)
  | Upsert (name : string) (points : list PointStruct)
  | Scroll (name : string) (limit offset : N)
  | Search (name : string) (query : list float64) (limit offset : N).

Inductive event : Type :=
  | StError (msg : string)
  | StInfo (msg : string)
  | StRender (what : string)
  | Sleep (seconds : N)
  | SessionSet (key : string) (v : pyval)
  | Qdrant (c : qdrant_call)
  | Transcribe (audio : bytes)
  | Embed (text : string).

(** ** The world *)

Record World : Type := mkWorld {
  secrets : gmap string string;        (* st.secrets *)
  environ : gmap string string;        (* os.environ *)
  session_state : gmap string pyval;   (* st.session_state *)
  client_cache : option QdrantClient;  (* st.cache_resource of get_qdrant_client *)
  server : Server;
  openai : Provider;
  trace : list event
}.

Definition set_session (f : gmap string pyval -> gmap string pyval) (w : World) : World :=
  mkWorld (secrets w) (environ w) (f (session_state w)) (client_cache w)
          (server w) (openai w) (trace w).

Definition set_cache (c : option QdrantClient) (w : World) : World :=
  mkWorld (secrets w) (environ w) (session_state w) c
          (server w) (openai w) (trace w).

Definition set_server (s : Server) (w : World) : World :=
  mkWorld (secrets w) (environ w) (session_state w) (client_cache w)
          s (openai w) (trace w).

Definition set_collections (cs : gmap string Collection) (w : World) : World :=
  set_server (mkServer (srv_down (server w)) cs (srv_rank (server w))) w.

Definition emit (e : event) (w : World) : World :=
  mkWorld (secrets w) (environ w) (session_state w) (client_cache w)
          (server w) (openai w) (trace w ++ [e])%list.

(** ** The script monad: state passing with exceptions and script control *)

Definition M (A : Type) : Type := World -> outcome A * World.

Definition ret {A} (a : A) : M A := fun w => (Ret a, w).
Definition raise {A} (e : exn) : M A := fun w => (Raise e, w).
Definition halt {A} (c : control) : M A := fun w => (Halt c, w).

Definition bind {A B} (m : M A) (k : A -> M B) : M B :=
  fun w =>
    match m w with
    | (Ret a, w') => k a w'
    | (Raise e, w') => (Raise e, w')
    | (Halt c, w') => (Halt c, w')
    end.

(** [try: m  except Exception as e: h e] *)
Definition try_except {A} (m : M A) (h : exn -> M A) : M A :=
  fun w =>
    match m w with
    | (Raise e, w') => h e w'
    | r => r
    end.

Definition get : M World := fun w => (Ret w, w).
Definition modify (f : World -> World) : M unit := fun w => (Ret tt, f w).
Definition log (e : event) : M unit := modify (emit e).

#[global] Instance M_ret : MRet M := @ret.
#[global] Instance M_bind : MBind M := fun A B k m => bind m k.

(** Falling through a statement ([else] branches that do nothing). *)
Definition pass : M unit := ret tt.

(** Streamlit elements. *)
Definition st_error (msg : string) : M unit := log (StError msg).
Definition st_info (msg : string) : M unit := log (StInfo msg).
Definition st_render (what : string) : M unit := log (StRender what).
Definition st_stop {A} : M A := halt StopScript.
Definition st_rerun {A} : M A := halt RerunScript.
Definition time_sleep (seconds : N) : M unit := log (Sleep seconds).

(** [os.getenv(key)]: [None] when the variable is not set. *)
Definition os_getenv (key : string) : M (option string) :=
  w ← get; ret (environ w !! key).

(** [st.session_state[key]], [st.session_state.get(key)] and
    [st.session_state[key] = v]. *)
Definition session_getitem (key : string) : M pyval :=
  w ← get;
  match session_state w !! key with
  | Some v => ret v
  | None => raise (Exn KeyError ("'" +:+ key +:+ "'"))
  end.

Definition session_get (key : string) : M pyval :=
  w ← get; ret (default PyNone (session_state w !! key)).

Definition session_setitem (key : string) (v : pyval) : M unit :=
  modify (set_session (insert key v));; log (SessionSet key v).

(** ** Module level: environment file and secret overrides (lines 13-20)

    [load_dotenv()] adds the entries of the [.env] file to the process
    environment, keeping the variables that are already set. *)
Definition load_dotenv (dotenv_file : gmap string string) : M unit :=
  modify (λ w, mkWorld (secrets w) (environ w ∪ dotenv_file) (session_state w)
                       (client_cache w) (server w) (openai w) (trace w)).

(** Reading [st.secrets] parses the secrets file the first time, and the
    parse exports every root-level secret into the process environment,
    replacing a variable of the same name; later reads find the environment
    already so. *)
Definition export_secrets (w : World) : World :=
  mkWorld (secrets w) (secrets w ∪ environ w) (session_state w)
          (client_cache w) (server w) (openai w) (trace w).

(** [key in st.secrets] and [st.secrets[key]]. *)
Definition st_secrets_contains (key : string) : M bool :=
  modify export_secrets;;
  w ← get;
  ret (bool_decide (is_Some (secrets w !! key))).

Definition st_secrets_getitem (key : string) : M string :=
  modify export_secrets;;
  w ← get;
  match secrets w !! key with
  | Some v => ret v
  | None => raise (Exn KeyError ("'" +:+ key +:+ "'"))
  end.

(** [env] is the dictionary read from the [.env] file, with the two Qdrant
    entries replaced by the secret store's when it has them. *)
Definition env (dotenv_values : gmap string string) (w : World) : gmap string string :=
  let env0 := dotenv_values in
  let env1 := match secrets w !! "QDRANT_URL" with
              | Some v => <["QDRANT_URL" := v]> env0
              | None => env0
              end in
  match secrets w !! "QDRANT_API_KEY" with
  | Some v => <["QDRANT_API_KEY" := v]> env1
  | None => env1
  end.

(** Lines 14-20 as they run when the module is loaded, before any
    function of the module can be called: the environment file is loaded,
    the secret store is read (and so exported), and [env] is built. *)
Definition module_level (dotenv_file : gmap string string) : M (gmap string string) :=
  load_dotenv dotenv_file;;
  has_url ← st_secrets_contains "QDRANT_URL";
  env1 ← (if has_url : bool then
            v ← st_secrets_getitem "QDRANT_URL";
            ret (<["QDRANT_URL" := v]> dotenv_file)
          else ret dotenv_file);
  has_key ← st_secrets_contains "QDRANT_API_KEY";
  (if has_key : bool then
     v ← st_secrets_getitem "QDRANT_API_KEY";
     ret (<["QDRANT_API_KEY" := v]> env1)
   else ret env1).

(** ** Secret resolver (lines 23-29)

    The module level has read [st.secrets] before [get_secret] can be
    called, so the read here changes nothing any more. *)
Definition get_secret (key : string) : M string :=
  w ← get;
  match secrets w !! key with
  | Some v => ret v
  | None =>
      match environ w !! key with
      | Some v => ret v
      | None =>
          raise (Exn ValueError
                   ("Secret '" +:+ key +:+
                    "' not found in Streamlit secrets or .env environment variables."))
      end
  end.

(** ** Configuration (lines 32-35) *)
Definition EMBEDDING_MODEL : string := "text-embedding-3-large".
Definition EMBEDDING_DIM : N := 3072.
Definition AUDIO_TRANSCRIBE_MODEL : string := "whisper-1".
Definition QDRANT_COLLECTION_NAME : string := "notes".

(** ** OpenAI client (lines 38-39) *)

(** [OpenAI(api_key=st.session_state["openai_api_key"])]: the client is the
    key it carries. *)
Definition get_openai_client : M pyval :=
  session_getitem "openai_api_key".

(** ** Transcription (lines 42-55) *)

(** [BytesIO(v)]: an empty buffer for [None], a [TypeError] for a [str]. *)
Definition bytes_io (v : pyval) : M bytes :=
  match v with
  | PyBytes b => ret b
  | PyNone => ret []
  | PyStr _ => raise (Exn TypeError "a bytes-like object is required, not 'str'")
  end.

Definition transcribe_audio (audio_bytes : pyval) : M string :=
  try_except
    (openai_client ← get_openai_client;
     audio_file ← bytes_io audio_bytes;
     log (Transcribe audio_file);;
     w ← get;
     match transcriptions_create (openai w) openai_client audio_file with
     | Ok text => ret text
     | Err e => raise e
     end)
    (λ e,
       st_error ("Nie udało się przetworzyć audio: " +:+ exn_str e);;
       ret EmptyString).

(** ** Qdrant client (lines 58-63), cached by [st.cache_resource] *)
Definition get_qdrant_client : M QdrantClient :=
  w ← get;
  match client_cache w with
  | Some c => ret c
  | None =>
      url ← os_getenv "QDRANT_URL";
      api_key ← os_getenv "QDRANT_API_KEY";
      let c := mkClient url api_key in
      modify (set_cache (Some c));;
      ret c
  end.

(** *** Requests of the client

    Every request is recorded, then fails when the server cannot be
    reached. *)
Definition request {A} (c : qdrant_call) (k : Server -> M A) : M A :=
  log (Qdrant c);;
  w ← get;
  match srv_down (server w) with
  | Some msg => raise (Exn ResponseHandlingException msg)
  | None => k (server w)
  end.

Definition not_found {A} (name : string) : M A :=
  raise (Exn UnexpectedResponse
           ("404 (Not Found): Collection `" +:+ name +:+ "` doesn't exist!")).

(** [qdrant_client.get_health()]: [QdrantClient] has no such method, so
    looking the attribute up raises before anything is sent. *)
Definition no_get_health : exn :=
  Exn AttributeError "'QdrantClient' object has no attribute 'get_health'".

Definition get_health (_ : QdrantClient) : M unit :=
  raise no_get_health.

Definition collection_exists (_ : QdrantClient) (name : string) : M bool :=
  request (CollectionExists name)
    (λ s, ret (bool_decide (is_Some (srv_collections s !! name)))).

Definition create_collection (_ : QdrantClient) (name : string)
    (size : N) (distance : Distance) : M bool :=
  request (CreateCollection name size distance)
    (λ s,
       match srv_collections s !! name with
       | Some _ =>
           raise (Exn UnexpectedResponse
                    ("409 (Conflict): Collection `" +:+ name +:+ "` already exists!"))
       | None =>
           modify (set_collections
                     (<[name := mkCollection size distance ∅]> (srv_collections s)));;
           ret true
       end).

(** [count(collection_name, exact=True).count] *)
Definition count (_ : QdrantClient) (name : string) : M N :=
  request (Count name)
    (λ s,
       match srv_collections s !! name with
       | Some c => ret (N.of_nat (size (coll_points c)))
       | None => not_found name
       end).

(** Insert-or-replace by id. *)
Definition store_point (pts : gmap N Stored) (p : PointStruct) : gmap N Stored :=
  <[point_id p := mkStored (point_vector p) (point_payload p)]> pts.

Definition dimension_ok (c : Collection) (v : list float64) : bool :=
  bool_decide (N.of_nat (length v) = coll_size c).

Definition dimension_error {A} : M A :=
  raise (Exn UnexpectedResponse "400 (Bad Request): Wrong input: Vector dimension error").

Definition upsert (_ : QdrantClient) (name : string) (points : list PointStruct) : M unit :=
  request (Upsert name points)
    (λ s,
       match srv_collections s !! name with
       | Some c =>
           if forallb (λ p, dimension_ok c (point_vector p)) points
           then modify (set_collections
                          (<[name := mkCollection (coll_size c) (coll_distance c)
                                       (foldl store_point (coll_points c) points)]>
                             (srv_collections s)))
           else dimension_error
       | None => not_found name
       end).

(** Points in the order [scroll] walks them: by increasing id. *)
Definition id_le (p q : N * Stored) : Prop := (p.1 ≤ q.1)%N.

#[global] Instance id_le_dec : RelDecision id_le.
Proof. intros p q. unfold id_le. apply _. Defined.

Definition by_id (pts : gmap N Stored) : list (N * Stored) :=
  merge_sort id_le (map_to_list pts).

Definition to_record (p : N * Stored) : QRecord :=
  mkRecord p.1 (stored_payload p.2).

(** [scroll(collection_name, limit, offset)]: the page of at most [limit]
    records starting at id [offset], and the id the next page starts at. *)
Definition scroll (_ : QdrantClient) (name : string) (limit offset : N)
    : M (list QRecord * option N) :=
  request (Scroll name limit offset)
    (λ s,
       match srv_collections s !! name with
       | Some c =>
           let pts := filter (λ p, (offset ≤ p.1)%N) (by_id (coll_points c)) in
           ret (to_record <$> take (N.to_nat limit) pts,
                fst <$> pts !! N.to_nat limit)
       | None => not_found name
       end).

(** [search(collection_name, query_vector, limit, offset)] *)
Definition search (_ : QdrantClient) (name : string) (query_vector : list float64)
    (limit offset : N) : M (list ScoredPoint) :=
  request (Search name query_vector limit offset)
    (λ s,
       match srv_collections s !! name with
       | Some c =>
           if dimension_ok c query_vector
           then ret (take (N.to_nat limit)
                       (drop (N.to_nat offset)
                          (srv_rank s (map_to_list (coll_points c)) query_vector)))
           else dimension_error
       | None => not_found name
       end).

(** ** Connection test (lines 66-73) *)
Definition test_qdrant_connection : M bool :=
  try_except
    (qdrant_client ← get_qdrant_client;
     get_health qdrant_client;;
     ret true)
    (λ e,
       st_error ("Nie udało się połączyć z Qdrant: " +:+ exn_str e);;
       ret false).

(** ** Collection assurance (lines 76-99) *)
Definition assure_db_collection_exists : M unit :=
  qdrant_client ← get_qdrant_client;
  connected ← test_qdrant_connection;
  if negb connected then pass
  else
    try_except
      (time_sleep 2;;
       found ← collection_exists qdrant_client QDRANT_COLLECTION_NAME;
       if negb found then
         st_info "Kolekcja nie istnieje. Tworzymy ją.";;
         create_collection qdrant_client QDRANT_COLLECTION_NAME EMBEDDING_DIM COSINE;;
         ret tt
       else
         st_info "Kolekcja już istnieje.")
      (λ e,
         st_error ("Błąd przy sprawdzaniu lub tworzeniu kolekcji w Qdrant: " +:+ exn_str e);;
         st_stop).

(** ** Embeddings (lines 102-109) *)
Definition get_embeddings (text : string) : M (list float64) :=
  openai_client ← get_openai_client;
  log (Embed text);;
  w ← get;
  match embeddings_create (openai w) openai_client text with
  | Ok v => ret v
  | Err e => raise e
  end.

(** ** Adding a note (lines 112-125) *)
Definition add_note_to_db (note_text : string) : M unit :=
  qdrant_client ← get_qdrant_client;
  points_count ← count qdrant_client QDRANT_COLLECTION_NAME;
  vector ← get_embeddings note_text;
  upsert qdrant_client QDRANT_COLLECTION_NAME
    [mkPoint (points_count + 1) vector {["text" := note_text]}].

(** ** Listing and searching notes (lines 128-140) *)

(** The objects the comprehension of line 139 walks over: [Record]s from
    [scroll], [ScoredPoint]s from [search]. *)
Inductive note_obj : Type :=
  | ARecord (r : QRecord)
  | AScored (p : ScoredPoint).

Definition note_payload (note : note_obj) : gmap string string :=
  match note with
  | ARecord r => record_payload r
  | AScored p => scored_payload p
  end.

(** [payload[key]] *)
Definition payload_getitem (payload : gmap string string) (key : string) : M string :=
  match payload !! key with
  | Some v => ret v
  | None => raise (Exn KeyError ("'" +:+ key +:+ "'"))
  end.

(** [note.score]: a [Record] has no such attribute. *)
Definition note_score (note : note_obj) : M (option float64) :=
  match note with
  | ARecord _ => raise (Exn AttributeError "'Record' object has no attribute 'score'")
  | AScored p => ret (Some (scored_score p))
  end.

(** An entry [{"text": ..., "score": ...}] of the result. *)
Record NoteResult : Type := mkResult {
  res_text : string;
  res_score : option float64
}.

Definition list_notes_from_db (query : option string) (offset limit : N)
    : M (list NoteResult) :=
  qdrant_client ← get_qdrant_client;
  notes ← (if negb (truthy (from_option PyStr PyNone query)) then
             page ← scroll qdrant_client QDRANT_COLLECTION_NAME limit offset;
             ret (ARecord <$> page.1)
           else
             query_vector ← get_embeddings (default EmptyString query);
             found ← search qdrant_client QDRANT_COLLECTION_NAME query_vector limit offset;
             ret (AScored <$> found));
  mapM (λ note,
          text ← payload_getitem (note_payload note) "text";
          score ← note_score note;
          ret (mkResult text score))
       notes.

(** ** The script body (lines 143-199) *)

(** Text typed into the editor: the text the editor showed when it was
    rendered, and what the user made of it. *)
Record Edit : Type := mkEdit {
  edit_shown : string;
  edit_typed : string
}.

(** What the user did with the widgets before this run of the script. *)
Record Inputs : Type := mkInputs {
  in_api_key : string;           (* content of the "Klucz API" field *)
  in_note_audio : option bytes;  (* the recording exported as mp3; [None]: nothing recorded *)
  in_transcribe : bool;          (* "Transkrybuj audio" pressed *)
  in_edit : option Edit;         (* what was typed into "Edytuj notatkę"; [None]: untouched *)
  in_save : bool                 (* "Zapisz notatkę" pressed *)
}.

(** [st.button(label, disabled=...)]: a disabled button cannot be pressed. *)
Definition st_button (label : string) (pressed disabled : bool) : M bool :=
  st_render label;; ret (pressed && negb disabled).

(** The script keeps [str] under its text keys; anything else there is a
    [TypeError] for the widgets and calls that take the text. *)
Definition expect_str (v : pyval) : M string :=
  match v with
  | PyStr s => ret s
  | _ => raise (Exn TypeError "expected str")
  end.

(** [st.text_area(label, value=...)] without a key: the widget is
    identified by its label and its [value], so what the user typed is
    returned only by the editor that showed the same [value]; with another
    [value] the editor is a new widget and returns [value]. *)
Definition editor_text (value : string) (typed : option Edit) : string :=
  match typed with
  | Some e => if decide (edit_shown e = value) then edit_typed e else value
  | None => value
  end.

Definition st_text_area (label : string) (value : pyval) (typed : option Edit) : M string :=
  st_render label;;
  initial ← expect_str value;
  ret (editor_text initial typed).

(** Credential onboarding (lines 146-156). *)
Definition check_api_key (inp : Inputs) : M unit :=
  key ← session_get "openai_api_key";
  (if negb (truthy key) then
     w ← get;
     match environ w !! "OPENAI_API_KEY" with
     | Some v => session_setitem "openai_api_key" (PyStr v)
     | None =>
         st_info "Dodaj swój klucz API OpenAI aby móc korzystać z tej aplikacji";;
         session_setitem "openai_api_key" (PyStr (in_api_key inp));;
         key' ← session_getitem "openai_api_key";
         if truthy key' then st_rerun else pass
     end
   else pass);;
  key ← session_get "openai_api_key";
  if negb (truthy key) then st_stop else pass.

(** Session initialisation (lines 159-169). *)
Definition init_key (key : string) (v : pyval) : M unit :=
  w ← get;
  match session_state w !! key with
  | Some _ => pass
  | None => session_setitem key v
  end.

Definition init_session : M unit :=
  init_key "note_audio_bytes_md5" PyNone;;
  init_key "note_audio_bytes" PyNone;;
  init_key "note_text" (PyStr EmptyString);;
  init_key "note_audio_text" (PyStr EmptyString).

Section Script.

(** [md5(b).hexdigest()] of [hashlib]. *)
Variable md5_hexdigest : bytes -> string.

Definition md5 (v : pyval) : M string :=
  match v with
  | PyBytes b => ret (md5_hexdigest b)
  | _ => raise (Exn TypeError "object supporting the buffer API required")
  end.

(** New audio arrived (lines 184-189). *)
Definition note_audio_captured (audio : bytes) : M unit :=
  session_setitem "note_audio_bytes" (PyBytes audio);;
  note_audio_bytes ← session_getitem "note_audio_bytes";
  current_md5 ← md5 note_audio_bytes;
  stored_md5 ← session_getitem "note_audio_bytes_md5";
  if bool_decide (stored_md5 ≠ PyStr current_md5) then
    session_setitem "note_audio_text" (PyStr EmptyString);;
    session_setitem "note_text" (PyStr EmptyString);;
    session_setitem "note_audio_bytes_md5" (PyStr current_md5)
  else pass.

(** Modelled from the spec: the body of the save branch of line 199,
    which the source file at hand does not contain.  Per section 4.5,
    saving invokes the vector store's upsert with the edited text and
    leaves the note text in place. *)
Definition save_note : M unit :=
  note_text ← session_getitem "note_text";
  text ← expect_str note_text;
  add_note_to_db text.

(** The save button and what it triggers (line 199). *)
Definition save_section (inp : Inputs) : M unit :=
  note_text ← session_getitem "note_text";
  save ← (if truthy note_text then
            note_text' ← session_getitem "note_text";
            st_button "Zapisz notatkę" (in_save inp) (negb (truthy note_text'))
          else ret false);
  if save : bool then save_note else pass.

(** The "Dodaj notatkę" tab (lines 176-199). *)
Definition add_tab (inp : Inputs) : M unit :=
  st_render "audiorecorder";;
  match in_note_audio inp with
  | None => pass
  | Some audio =>
      note_audio_captured audio;;
      st_render "audio";;
      transcribe ← st_button "Transkrybuj audio" (in_transcribe inp) false;
      (if transcribe : bool then
         note_audio_bytes ← session_getitem "note_audio_bytes";
         text ← transcribe_audio note_audio_bytes;
         session_setitem "note_audio_text" (PyStr text)
       else pass);;
      note_audio_text ← session_getitem "note_audio_text";
      (if truthy note_audio_text then
         text ← st_text_area "Edytuj notatkę" note_audio_text (in_edit inp);
         session_setitem "note_text" (PyStr text)
       else pass);;
      save_section inp
  end.

(** One run of the script, up to and including the "Dodaj notatkę" tab. *)
Definition script (inp : Inputs) : M unit :=
  st_render "set_page_config";;
  check_api_key inp;;
  init_session;;
  st_render "title";;
  assure_db_collection_exists;;
  st_render "tabs";;
  add_tab inp.

End Script.

(** ** Worlds for the examples

    No secrets or a secret store and an environment that disagree; a server
    that is up or down; a provider that answers or fails. *)
Definition idle_server : Server := mkServer None ∅ (λ _ _, []).
Definition down_server : Server := mkServer (Some "Connection refused") ∅ (λ _ _, []).
Definition silent_provider : Provider :=
  mkProvider (λ _ _, Ok EmptyString) (λ _ _, Ok []).
Definition failing_provider : Provider :=
  mkProvider (λ _ _, Err (Exn OpenAIError "429 insufficient_quota"))
             (λ _ _, Err (Exn OpenAIError "429 insufficient_quota")).

Definition world_of (sec envr : gmap string string) : World :=
  mkWorld sec envr ∅ None idle_server silent_provider [].

Definition cloud_secrets : gmap string string :=
  {["QDRANT_URL" := "https://cloud.example"; "QDRANT_API_KEY" := "cloud-key"]}.
Definition local_environ : gmap string string :=
  {["QDRANT_URL" := "http://localhost:6333"; "QDRANT_API_KEY" := "local-key"]}.

(** A session that holds an API key, on a given server and provider. *)
Definition keyed_world (srv : Server) (prov : Provider) : World :=
  mkWorld ∅ ∅ {["openai_api_key" := PyStr "sk-test"]} None srv prov [].

(** A session with a transcript and an edited note for earlier audio. *)
Definition stale_world : World :=
  mkWorld ∅ ∅
    {["openai_api_key" := PyStr "sk-test";
      "note_audio_bytes_md5" := PyStr "old";
      "note_audio_bytes" := PyBytes [x00%byte];
      "note_audio_text" := PyStr "stale transcript";
      "note_text" := PyStr "stale note"]}
    None idle_server silent_provider [].

(** A provider whose embeddings have two components, and a server whose
    [notes] collection takes such vectors and is empty. *)
Definition tiny_provider : Provider :=
  mkProvider (λ _ _, Ok "hello") (λ _ text, Ok [Z.of_nat (String.length text); 7%Z]).
Definition tiny_server : Server :=
  mkServer None {["notes" := mkCollection 2 COSINE ∅]} (λ _ _, []).
Definition empty_store_world : World := keyed_world tiny_server tiny_provider.

(** The same server holding three notes. *)
Definition three_notes : gmap N Stored :=
  <[3%N := mkStored [9%Z; 7%Z] {["text" := "feed cat"]}]>
    (<[2%N := mkStored [8%Z; 7%Z] {["text" := "call mom"]}]>
       (<[1%N := mkStored [8%Z; 7%Z] {["text" := "buy milk"]}]> ∅)).
Definition three_notes_world : World :=
  keyed_world (mkServer None {["notes" := mkCollection 2 COSINE three_notes]} (λ _ _, []))
              tiny_provider.

(** A session with an API key in front of a server that is down, and a
    visit in which the user does nothing. *)
Definition down_world : World := keyed_world down_server silent_provider.
Definition idle_visit : Inputs := mkInputs EmptyString None false None false.

(** A collection written by another program: its only point has
    identifier 2. *)
Definition foreign_world : World :=
  keyed_world
    (mkServer None
       {["notes" := mkCollection 2 COSINE
                      {[2%N := mkStored [1%Z; 1%Z] {["text" := "theirs"]}]}]}
       (λ _ _, []))
    tiny_provider.

(** A stand-in digest for the examples: the bytes themselves, as text. *)
Definition plain_digest (b : bytes) : string := String.string_of_list_byte b.

(** ** Statements of the specification

    Sentences of the specification (sections 4.4 and 3), put over the
    embedding in the specification's own words, to be compared with what
    the code does. *)

(** Halting on an unreachable store: the collection assurance stops the
    script. *)
Definition halts_when_unreachable (w : World) : Prop :=
  is_Some (srv_down (server w)) →
  ∃ w', assure_db_collection_exists w = (Halt StopScript, w').

(** ** The ways [add_note_to_db] can end *)

(** The new point of [add_note_to_db]. *)
Definition new_point (col : Collection) (v : list float64) (text : string) : PointStruct :=
  mkPoint (N.of_nat (size (coll_points col)) + 1) v {["text" := text]}.

(** The world once the client is at hand and the count has been asked for. *)
Definition counted (c : QdrantClient) (w : World) : World :=
  emit (Qdrant (Count QDRANT_COLLECTION_NAME)) (set_cache (Some c) w).

Inductive add_note_outcome (text : string) (w : World) : outcome unit * World -> Prop :=
  | add_unreachable c msg :
      srv_down (server w) = Some msg →
      add_note_outcome text w
        (Raise (Exn ResponseHandlingException msg), counted c w)
  | add_no_collection c :
      srv_down (server w) = None →
      srv_collections (server w) !! QDRANT_COLLECTION_NAME = None →
      add_note_outcome text w
        (Raise (Exn UnexpectedResponse
                  ("404 (Not Found): Collection `" +:+ QDRANT_COLLECTION_NAME +:+
                   "` doesn't exist!")),
         counted c w)
  | add_no_api_key c col :
      srv_down (server w) = None →
      srv_collections (server w) !! QDRANT_COLLECTION_NAME = Some col →
      session_state w !! "openai_api_key" = None →
      add_note_outcome text w
        (Raise (Exn KeyError "'openai_api_key'"), counted c w)
  | add_embedding_failed c col key e :
      srv_down (server w) = None →
      srv_collections (server w) !! QDRANT_COLLECTION_NAME = Some col →
      session_state w !! "openai_api_key" = Some key →
      embeddings_create (openai w) key text = Err e →
      add_note_outcome text w (Raise e, emit (Embed text) (counted c w))
  | add_wrong_dimension c col key v :
      srv_down (server w) = None →
      srv_collections (server w) !! QDRANT_COLLECTION_NAME = Some col →
      session_state w !! "openai_api_key" = Some key →
      embeddings_create (openai w) key text = Ok v →
      N.of_nat (length v) ≠ coll_size col →
      add_note_outcome text w
        (Raise (Exn UnexpectedResponse
                  "400 (Bad Request): Wrong input: Vector dimension error"),
         emit (Qdrant (Upsert QDRANT_COLLECTION_NAME [new_point col v text]))
           (emit (Embed text) (counted c w)))
  | add_stored c col key v :
      srv_down (server w) = None →
      srv_collections (server w) !! QDRANT_COLLECTION_NAME = Some col →
      session_state w !! "openai_api_key" = Some key →
      embeddings_create (openai w) key text = Ok v →
      N.of_nat (length v) = coll_size col →
      add_note_outcome text w
        (Ret tt,
         set_collections
           (<[QDRANT_COLLECTION_NAME :=
                mkCollection (coll_size col) (coll_distance col)
                  (store_point (coll_points col) (new_point col v text))]>
              (srv_collections (server w)))
           (emit (Qdrant (Upsert QDRANT_COLLECTION_NAME [new_point col v text]))
              (emit (Embed text) (counted c w)))).

(** ** The system as a whole

    The points of the [notes] collection (none while it is missing), the
    operations of the system, and what may happen around them. *)
Definition notes_points (w : World) : gmap N Stored :=
  from_option coll_points ∅ (srv_collections (server w) !! QDRANT_COLLECTION_NAME).

Inductive operation : Type :=
  | AssureCollection
  | AddNote (text : string)
  | ListNotes (query : option string) (offset limit : N)
  | TranscribeAudio (audio : pyval)
  | RunScript (md5_hexdigest : bytes -> string) (inp : Inputs).

(** The world after an operation, whatever its outcome. *)
Definition perform (op : operation) (w : World) : World :=
  match op with
  | AssureCollection => (assure_db_collection_exists w).2
  | AddNote text => (add_note_to_db text w).2
  | ListNotes query offset limit => (list_notes_from_db query offset limit w).2
  | TranscribeAudio audio => (transcribe_audio audio w).2
  | RunScript md5_hexdigest inp => (script md5_hexdigest inp w).2
  end.

(** Between operations the surroundings may change in any way that leaves
    the stored collections alone: the provider answers differently, the
    server goes down or comes back, a session starts or ends. *)
Definition surroundings_change (w w' : World) : Prop :=
  srv_collections (server w') = srv_collections (server w).

Inductive step : relation World :=
  | step_perform (op : operation) (w : World) : step w (perform op w)
  | step_surroundings (w w' : World) : surroundings_change w w' → step w w'.

Definition evolves : relation World := rtc step.

(** Written once (section 3 of the specification): once [add_note_to_db]
    has returned, no operation of the system changes or removes a stored
    note. *)
Definition written_once (w : World) : Prop :=
  ∀ text w', add_note_to_db text w = (Ret tt, w') →
  ∀ op i x, notes_points w' !! i = Some x →
            notes_points (perform op w') !! i = Some x.

(** Identifiers of the stored points lie between 1 and their number. *)
Definition dense (pts : gmap N Stored) : Prop :=
  ∀ i, is_Some (pts !! i) → (1 ≤ i ≤ N.of_nat (size pts))%N.

(** From [w] to [w'] the identifiers stay dense and every stored point is
    kept as it is. *)
Definition keeps_notes (w w' : World) : Prop :=
  dense (notes_points w) →
  dense (notes_points w') ∧
  ∀ i x, notes_points w !! i = Some x → notes_points w' !! i = Some x.

(** An upsert request is in order when each of its points carries a text
    that is [good]; every other effect is in order. *)
Definition ok_event (good : string -> Prop) (e : event) : Prop :=
  match e with
  | Qdrant (Upsert _ points) =>
      Forall (λ p, ∃ text, point_payload p !! "text" = Some text ∧ good text) points
  | _ => True
  end.

(** Every point stored in [w'] was already stored in [w], or carries a
    text that is [good]. *)
Definition adds_good (good : string -> Prop) (w w' : World) : Prop :=
  ∀ i x, notes_points w' !! i = Some x →
         notes_points w !! i = Some x ∨
         ∃ text, stored_payload x !! "text" = Some text ∧ good text.

(** From [w] to [w'] notes are kept, new notes are good, and the trace
    grows by effects that are in order. *)
Definition progress (good : string -> Prop) (w w' : World) : Prop :=
  keeps_notes w w' ∧
  adds_good good w w' ∧
  ∃ evs, trace w' = (trace w ++ evs)%list ∧ Forall (ok_event good) evs.

(** A statement keeps to a relation between the world before and after. *)
Definition respects (R : relation World) {A} (m : M A) : Prop :=
  ∀ w, R w (m w).2.

(** ** [add_note_to_db] in two phases

    Lines 113-117 and the argument of line 118 read the count and build the
    point; line 118 sends it.  [add_note_to_db] is the first phase followed
    by the second ([add_note_to_db_phases]). *)
Definition add_note_read (note_text : string) : M (QdrantClient * PointStruct) :=
  qdrant_client ← get_qdrant_client;
  points_count ← count qdrant_client QDRANT_COLLECTION_NAME;
  vector ← get_embeddings note_text;
  ret (qdrant_client, mkPoint (points_count + 1) vector {["text" := note_text]}).

Definition add_note_write (prepared : QdrantClient * PointStruct) : M unit :=
  upsert prepared.1 QDRANT_COLLECTION_NAME [prepared.2].

(** ** Statements that only look

    From [w] to [w'] nothing but the client cache and the trace has
    changed, and the trace has grown by effects of the kind [P]. *)
Definition observes (P : event -> Prop) (w w' : World) : Prop :=
  secrets w' = secrets w ∧
  environ w' = environ w ∧
  session_state w' = session_state w ∧
  server w' = server w ∧
  openai w' = openai w ∧
  ∃ evs, trace w' = (trace w ++ evs)%list ∧ Forall P evs.

(** Kinds of effects. *)
Definition lookup_effect (e : event) : Prop :=
  match e with
  | Qdrant (Scroll _ _ _) | Qdrant (Search _ _ _ _) | Embed _ => True
  | _ => False
  end.

Definition transcription_effect (e : event) : Prop :=
  match e with
  | Transcribe _ | StError _ => True
  | _ => False
  end.

Definition error_effect (e : event) : Prop :=
  match e with
  | StError _ => True
  | _ => False
  end.

Definition remote_effect (e : event) : Prop :=
  match e with
  | Qdrant _ | Transcribe _ | Embed _ => True
  | _ => False
  end.

(** ** More worlds for the examples *)

(** A server that scores every point by the first component of its
    vector, holding the three notes. *)
Definition first_component_rank (pts : list (N * Stored)) (_ : list float64)
    : list ScoredPoint :=
  (λ p, mkScored p.1 (default 0%Z (head (stored_vector p.2))) (stored_payload p.2)) <$> pts.

Definition scoring_world : World :=
  keyed_world
    (mkServer None {["notes" := mkCollection 2 COSINE three_notes]} first_component_rank)
    tiny_provider.

(** A session with an API key whose provider fails, in front of the empty
    [notes] collection. *)
Definition failing_world : World := keyed_world tiny_server failing_provider.

(** A [notes] collection made for vectors of five components. *)
Definition five_wide_world : World :=
  keyed_world (mkServer None {["notes" := mkCollection 5 DOT ∅]} (λ _ _, []))
              tiny_provider.

(** The world after [st.session_state[key] = v]. *)
Definition wrote (key : string) (v : pyval) (w : World) : World :=
  emit (SessionSet key v) (set_session (insert key v) w).

(** A session in which the recording [ID3] has been transcribed and
    edited, and the provider now fails. *)
Definition edited_world : World :=
  mkWorld ∅ ∅
    {["openai_api_key" := PyStr "sk-test";
      "note_audio_bytes_md5" := PyStr "ID3";
      "note_audio_bytes" := PyBytes [x49; x44; x33]%byte;
      "note_audio_text" := PyStr "buy milk";
      "note_text" := PyStr "buy oat milk"]}
    None tiny_server failing_provider [].

(** The edited session with a provider that answers ["hello"]. *)
Definition reedited_world : World :=
  mkWorld ∅ ∅
    {["openai_api_key" := PyStr "sk-test";
      "note_audio_bytes_md5" := PyStr "ID3";
      "note_audio_bytes" := PyBytes [x49; x44; x33]%byte;
      "note_audio_text" := PyStr "buy milk";
      "note_text" := PyStr "buy oat milk"]}
    None tiny_server tiny_provider [].

(** The same session before any transcription, with a provider that
    answers. *)
Definition recorded_world : World :=
  mkWorld ∅ ∅
    {["openai_api_key" := PyStr "sk-test";
      "note_audio_bytes_md5" := PyStr "ID3";
      "note_audio_bytes" := PyBytes [x49; x44; x33]%byte;
      "note_audio_text" := PyStr EmptyString;
      "note_text" := PyStr EmptyString]}
    None tiny_server tiny_provider [].

(** * Properties *)

(** Unfolding the monad down to state passing. *)
Ltac unfold_monad :=
  cbv beta iota delta
    [mbind M_bind mret M_ret bind ret raise halt try_except
     get modify log pass st_error st_info st_render st_stop st_rerun
     time_sleep os_getenv session_getitem session_get session_setitem];
  cbn.

(** ** Running the script step by step *)

Lemma run_bind {A B} (m : M A) (k : A -> M B) (w : World) :
  (m ≫= k) w =
    match m w with
    | (Ret a, w') => k a w'
    | (Raise e, w') => (Raise e, w')
    | (Halt c, w') => (Halt c, w')
    end.
Proof. reflexivity. Qed.

Lemma run_try {A} (m : M A) (h : exn -> M A) (w : World) :
  try_except m h w =
    match m w with
    | (Raise e, w') => h e w'
    | r => r
    end.
Proof. reflexivity. Qed.

(** Projections of an updated world. *)
Ltac world_simpl :=
  cbn [secrets environ session_state client_cache server openai trace
       set_session set_cache set_server set_collections emit
       srv_down srv_collections srv_rank fst snd].

(** Run the first statement of a sequence with the equation [H] for it. *)
Ltac run_with H := rewrite run_bind, H; cbv beta iota.

Lemma get_qdrant_client_cached (w : World) (c : QdrantClient) :
  client_cache w = Some c → get_qdrant_client w = (Ret c, w).
Proof. intros H. unfold get_qdrant_client. unfold_monad. rewrite H. reflexivity. Qed.

(** The client is always obtained, and is cached from then on. *)
Lemma get_qdrant_client_run (w : World) :
  ∃ c, get_qdrant_client w = (Ret c, set_cache (Some c) w).
Proof.
  unfold get_qdrant_client. unfold_monad.
  destruct w as [sec envr ss [c|] srv prov tr]; cbn; eauto.
Qed.

Lemma request_down {A} (c : qdrant_call) (k : Server -> M A) (w : World) (msg : string) :
  srv_down (server w) = Some msg →
  request c k w = (Raise (Exn ResponseHandlingException msg), emit (Qdrant c) w).
Proof. intros H. unfold request. unfold_monad. rewrite H. reflexivity. Qed.

Lemma request_up {A} (c : qdrant_call) (k : Server -> M A) (w : World) :
  srv_down (server w) = None →
  request c k w = k (server w) (emit (Qdrant c) w).
Proof. intros H. unfold request. unfold_monad. rewrite H. reflexivity. Qed.

(** The health probe fails on every server: the method does not exist. *)
Lemma test_qdrant_connection_run (w : World) (c : QdrantClient) :
  client_cache w = Some c →
  test_qdrant_connection w =
    (Ret false,
     emit (StError ("Nie udało się połączyć z Qdrant: " +:+ exn_str no_get_health)) w).
Proof.
  intros Hc. unfold test_qdrant_connection, get_health.
  rewrite run_try. run_with (get_qdrant_client_cached w c Hc). reflexivity.
Qed.

Lemma collection_exists_up (w : World) (c : QdrantClient) (name : string) :
  srv_down (server w) = None →
  collection_exists c name w =
    (Ret (bool_decide (is_Some (srv_collections (server w) !! name))),
     emit (Qdrant (CollectionExists name)) w).
Proof. intros Hd. unfold collection_exists. rewrite (request_up _ _ _ Hd). reflexivity. Qed.

Lemma create_collection_fresh (w : World) (c : QdrantClient) (name : string)
    (size : N) (distance : Distance) :
  srv_down (server w) = None →
  srv_collections (server w) !! name = None →
  create_collection c name size distance w =
    (Ret true,
     set_collections (<[name := mkCollection size distance ∅]> (srv_collections (server w)))
       (emit (Qdrant (CreateCollection name size distance)) w)).
Proof.
  intros Hd Hn. unfold create_collection. rewrite (request_up _ _ _ Hd).
  rewrite Hn. reflexivity.
Qed.

(** So the assurance returns at line 81, in every world. *)
Lemma assure_run (w : World) :
  ∃ c, assure_db_collection_exists w =
         (Ret tt,
          emit (StError ("Nie udało się połączyć z Qdrant: " +:+ exn_str no_get_health))
               (set_cache (Some c) w)).
Proof.
  unfold assure_db_collection_exists.
  destruct (get_qdrant_client_run w) as [c Hc]. exists c. run_with Hc.
  run_with (test_qdrant_connection_run (set_cache (Some c) w) c eq_refl).
  reflexivity.
Qed.

Lemma session_getitem_run (w : World) (key : string) (v : pyval) :
  session_state w !! key = Some v → session_getitem key w = (Ret v, w).
Proof. intros H. unfold session_getitem. unfold_monad. rewrite H. reflexivity. Qed.

Lemma session_setitem_run (w : World) (key : string) (v : pyval) :
  session_setitem key v w =
    (Ret tt, emit (SessionSet key v) (set_session (insert key v) w)).
Proof. reflexivity. Qed.

Lemma init_key_run (w : World) (key : string) (v : pyval) :
  ∃ w', init_key key v w = (Ret tt, w') ∧
        is_Some (session_state w' !! key) ∧
        ∀ k, is_Some (session_state w !! k) → is_Some (session_state w' !! k).
Proof.
  unfold init_key. unfold_monad.
  destruct (session_state w !! key) as [x|] eqn:Hk.
  - exists w. eauto.
  - eexists. split; [reflexivity|]. world_simpl. split.
    + rewrite lookup_insert_eq. eauto.
    + intros k Hs. destruct (decide (key = k)) as [->|Hne].
      * rewrite lookup_insert_eq. eauto.
      * rewrite lookup_insert_ne by exact Hne. exact Hs.
Qed.

(** After the session initialisation the four note keys are present. *)
Lemma init_session_provides (w : World) :
  ∃ w', init_session w = (Ret tt, w') ∧
        is_Some (session_state w' !! "note_audio_bytes_md5") ∧
        is_Some (session_state w' !! "note_audio_bytes") ∧
        is_Some (session_state w' !! "note_text") ∧
        is_Some (session_state w' !! "note_audio_text").
Proof.
  unfold init_session.
  destruct (init_key_run w "note_audio_bytes_md5" PyNone) as (w1 & H1 & Hk1 & Hm1).
  destruct (init_key_run w1 "note_audio_bytes" PyNone) as (w2 & H2 & Hk2 & Hm2).
  destruct (init_key_run w2 "note_text" (PyStr EmptyString)) as (w3 & H3 & Hk3 & Hm3).
  destruct (init_key_run w3 "note_audio_text" (PyStr EmptyString)) as (w4 & H4 & Hk4 & Hm4).
  exists w4. run_with H1. run_with H2. run_with H3. rewrite H4.
  repeat split; auto.
Qed.

Lemma count_run (w : World) (c : QdrantClient) (name : string) (col : Collection) :
  srv_down (server w) = None →
  srv_collections (server w) !! name = Some col →
  count c name w =
    (Ret (N.of_nat (size (coll_points col))), emit (Qdrant (Count name)) w).
Proof.
  intros Hd Hcol. unfold count. rewrite (request_up _ _ _ Hd), Hcol. reflexivity.
Qed.

Lemma get_embeddings_run (w : World) (key : pyval) (text : string) (v : list float64) :
  session_state w !! "openai_api_key" = Some key →
  embeddings_create (openai w) key text = Ok v →
  get_embeddings text w = (Ret v, emit (Embed text) w).
Proof.
  intros Hk Hv. unfold get_embeddings, get_openai_client.
  run_with (session_getitem_run w _ key Hk).
  unfold_monad. rewrite Hv. reflexivity.
Qed.

Lemma upsert_run (w : World) (c : QdrantClient) (name : string)
    (points : list PointStruct) (col : Collection) :
  srv_down (server w) = None →
  srv_collections (server w) !! name = Some col →
  forallb (λ p, dimension_ok col (point_vector p)) points = true →
  upsert c name points w =
    (Ret tt,
     set_collections
       (<[name := mkCollection (coll_size col) (coll_distance col)
                    (foldl store_point (coll_points col) points)]>
          (srv_collections (server w)))
       (emit (Qdrant (Upsert name points)) w)).
Proof.
  intros Hd Hcol Hdim. unfold upsert. rewrite (request_up _ _ _ Hd), Hcol, Hdim.
  reflexivity.
Qed.

Lemma add_note_to_db_run (w : World) (col : Collection) (key : pyval)
    (text : string) (v : list float64) :
  srv_down (server w) = None →
  srv_collections (server w) !! QDRANT_COLLECTION_NAME = Some col →
  session_state w !! "openai_api_key" = Some key →
  embeddings_create (openai w) key text = Ok v →
  N.of_nat (length v) = coll_size col →
  ∃ c, add_note_to_db text w =
         (Ret tt,
          set_collections
            (<[QDRANT_COLLECTION_NAME :=
                 mkCollection (coll_size col) (coll_distance col)
                   (store_point (coll_points col) (new_point col v text))]>
               (srv_collections (server w)))
            (emit (Qdrant (Upsert QDRANT_COLLECTION_NAME [new_point col v text]))
               (emit (Embed text)
                  (emit (Qdrant (Count QDRANT_COLLECTION_NAME))
                     (set_cache (Some c) w))))).
Proof.
  intros Hd Hcol Hk Hv Hlen. unfold add_note_to_db.
  destruct (get_qdrant_client_run w) as [c Hc]. exists c. run_with Hc.
  rewrite run_bind, (count_run _ _ _ col) by assumption. cbv beta iota.
  rewrite run_bind, (get_embeddings_run _ key _ v) by assumption. cbv beta iota.
  rewrite (upsert_run _ _ _ _ col); [reflexivity|exact Hd|exact Hcol|].
  cbn. unfold dimension_ok. rewrite bool_decide_eq_true_2 by exact Hlen. reflexivity.
Qed.

Lemma scroll_run (w : World) (c : QdrantClient) (name : string)
    (limit offset : N) (col : Collection) :
  srv_down (server w) = None →
  srv_collections (server w) !! name = Some col →
  scroll c name limit offset w =
    (Ret (to_record <$> take (N.to_nat limit)
                          (filter (λ p, (offset ≤ p.1)%N) (by_id (coll_points col))),
          fst <$> filter (λ p, (offset ≤ p.1)%N) (by_id (coll_points col))
                    !! N.to_nat limit),
     emit (Qdrant (Scroll name limit offset)) w).
Proof.
  intros Hd Hcol. unfold scroll. rewrite (request_up _ _ _ Hd), Hcol. reflexivity.
Qed.

(** A collection with points has a first point in [scroll] order. *)
Lemma by_id_first (pts : gmap N Stored) :
  pts ≠ ∅ →
  ∃ p rest, by_id pts = p :: rest ∧ pts !! p.1 = Some p.2.
Proof.
  intros Hne. unfold by_id.
  pose proof (merge_sort_Permutation id_le (map_to_list pts)) as Hperm.
  destruct (merge_sort id_le (map_to_list pts)) as [|p rest] eqn:Hsort.
  - apply Permutation_nil_l in Hperm. symmetry in Hperm.
    apply map_to_list_empty_iff in Hperm. contradiction.
  - exists p, rest. split; [reflexivity|].
    apply elem_of_map_to_list. destruct p as [i x]. cbn.
    rewrite <- Hperm. left.
Qed.

(** Every run of [add_note_to_db] ends in one of the listed ways. *)
Lemma add_note_to_db_spec (text : string) (w : World) :
  add_note_outcome text w (add_note_to_db text w).
Proof.
  unfold add_note_to_db.
  destruct (get_qdrant_client_run w) as [c Hc]. run_with Hc.
  destruct (srv_down (server w)) as [msg|] eqn:Hd.
  { rewrite run_bind. unfold count. rewrite (request_down _ _ (set_cache _ w) _ Hd).
    apply add_unreachable, Hd. }
  destruct (srv_collections (server w) !! QDRANT_COLLECTION_NAME) as [col|] eqn:Hcol.
  2:{ rewrite run_bind. unfold count. rewrite (request_up _ _ (set_cache _ w) Hd). world_simpl.
      rewrite Hcol. apply add_no_collection; assumption. }
  rewrite run_bind, (count_run _ _ _ col) by assumption. cbv beta iota.
  destruct (session_state w !! "openai_api_key") as [key|] eqn:Hk.
  2:{ rewrite run_bind. unfold get_embeddings, get_openai_client, session_getitem.
      unfold_monad. rewrite Hk. eapply add_no_api_key; eassumption. }
  destruct (embeddings_create (openai w) key text) as [v|e] eqn:Hv.
  2:{ rewrite run_bind. unfold get_embeddings, get_openai_client, session_getitem.
      unfold_monad. rewrite Hk. cbn. rewrite Hv.
      eapply add_embedding_failed; eassumption. }
  rewrite run_bind, (get_embeddings_run _ key _ v) by assumption. cbv beta iota.
  destruct (decide (N.of_nat (length v) = coll_size col)) as [Hlen|Hlen].
  - rewrite (upsert_run _ _ _ _ col); [|assumption|assumption|].
    + world_simpl. eapply add_stored; eassumption.
    + cbn. unfold dimension_ok. rewrite bool_decide_eq_true_2 by exact Hlen. reflexivity.
  - unfold upsert. rewrite request_up by exact Hd. world_simpl. rewrite Hcol.
    cbn [forallb point_vector]. unfold dimension_ok.
    rewrite bool_decide_eq_false_2 by exact Hlen. cbn [andb].
    eapply add_wrong_dimension; eassumption.
Qed.

(** ** Statements that keep to a preorder on worlds *)

Section Respects.
Context (R : relation World) `{!PreOrder R}.

Lemma respects_ret {A} (a : A) : respects R (ret a).
Proof. intros w. reflexivity. Qed.

Lemma respects_mret {A} (a : A) : respects R (mret a).
Proof. intros w. reflexivity. Qed.

Lemma respects_raise {A} (e : exn) : respects R (raise e : M A).
Proof. intros w. reflexivity. Qed.

Lemma respects_halt {A} (c : control) : respects R (halt c : M A).
Proof. intros w. reflexivity. Qed.

Lemma respects_get : respects R get.
Proof. intros w. reflexivity. Qed.

Lemma respects_bind {A B} (m : M A) (k : A -> M B) :
  respects R m → (∀ a, respects R (k a)) → respects R (m ≫= k).
Proof.
  intros Hm Hk w. rewrite run_bind. specialize (Hm w).
  destruct (m w) as [[a|e|c] w']; cbn in *; [|assumption..].
  etrans; [exact Hm|apply Hk].
Qed.

Lemma respects_try {A} (m : M A) (h : exn -> M A) :
  respects R m → (∀ e, respects R (h e)) → respects R (try_except m h).
Proof.
  intros Hm Hh w. rewrite run_try. specialize (Hm w).
  destruct (m w) as [[a|e|c] w']; cbn in *; [assumption| |assumption].
  etrans; [exact Hm|apply Hh].
Qed.
End Respects.

(** Take a statement apart along its sequencing and its branches. *)
Ltac respects_split :=
  repeat first
    [ solve [apply respects_ret; exact _]
    | solve [apply respects_mret; exact _]
    | solve [apply respects_raise; exact _]
    | solve [apply respects_halt; exact _]
    | solve [apply respects_get; exact _]
    | (apply respects_bind; try exact _); [|intros ?]
    | (apply respects_try; try exact _); [|intros ?]
    | match goal with
      | |- respects _ (match ?x with _ => _ end) => destruct x
      end ].

Ltac respects_seq := apply respects_bind; try exact _.
Ltac respects_catch := apply respects_try; try exact _.

(** ** Progress of the world *)

Lemma dense_empty : dense ∅.
Proof. intros i [x Hx]. rewrite lookup_empty in Hx. discriminate. Qed.

Lemma keeps_notes_same (w w' : World) :
  srv_collections (server w') = srv_collections (server w) → keeps_notes w w'.
Proof.
  intros H Hd. unfold notes_points in *. rewrite H. split; [exact Hd|auto].
Qed.

#[global] Instance keeps_notes_preorder : PreOrder keeps_notes.
Proof.
  split.
  - intros w. apply keeps_notes_same. reflexivity.
  - intros w1 w2 w3 H12 H23 Hd. destruct (H12 Hd) as [Hd2 Hk12].
    destruct (H23 Hd2) as [Hd3 Hk23]. split; [exact Hd3|]. auto.
Qed.

Lemma adds_good_same (good : string -> Prop) (w w' : World) :
  srv_collections (server w') = srv_collections (server w) → adds_good good w w'.
Proof. intros H i x Hx. left. unfold notes_points in *. rewrite <- H. exact Hx. Qed.

#[global] Instance progress_preorder (good : string -> Prop) : PreOrder (progress good).
Proof.
  split.
  - intros w. split; [reflexivity|]. split; [apply adds_good_same; reflexivity|].
    exists []. rewrite app_nil_r. auto.
  - intros w1 w2 w3 (Hk12 & Ha12 & ev12 & Ht12 & Hok12) (Hk23 & Ha23 & ev23 & Ht23 & Hok23).
    split; [etrans; eassumption|]. split.
    + intros i x Hx. destruct (Ha23 i x Hx) as [Hx2|Hg]; [|right; exact Hg].
      apply Ha12, Hx2.
    + exists (ev12 ++ ev23)%list.
      rewrite Ht23, Ht12, app_assoc. split; [reflexivity|]. apply Forall_app; auto.
Qed.

(** The stored collections are as before and the trace is unchanged. *)
Lemma progress_silent (good : string -> Prop) (w w' : World) :
  srv_collections (server w') = srv_collections (server w) →
  trace w' = trace w →
  progress good w w'.
Proof.
  intros Hs Ht. split; [apply keeps_notes_same, Hs|].
  split; [apply adds_good_same, Hs|].
  exists []. rewrite app_nil_r. auto.
Qed.

Lemma progress_emit (good : string -> Prop) (e : event) (w : World) :
  ok_event good e → progress good w (emit e w).
Proof.
  intros He. split; [apply keeps_notes_same; reflexivity|].
  split; [apply adds_good_same; reflexivity|].
  exists [e]. split; [reflexivity|]. auto.
Qed.

Lemma progress_then_emit (good : string -> Prop) (e : event) (w w' : World) :
  progress good w w' → ok_event good e → progress good w (emit e w').
Proof. intros H He. etrans; [exact H|apply progress_emit, He]. Qed.

(** Storing the new point of [add_note_to_db] on dense identifiers. *)
Lemma store_new_point_fresh (col : Collection) (v : list float64) (text : string) :
  dense (coll_points col) →
  coll_points col !! point_id (new_point col v text) = None.
Proof.
  intros Hd. destruct (coll_points col !! _) as [x|] eqn:Hx; [|reflexivity].
  cbn in Hx. assert (is_Some (coll_points col !! (N.of_nat (size (coll_points col)) + 1)%N))
    as Hs by eauto.
  apply Hd in Hs. lia.
Qed.

Lemma store_new_point_dense (col : Collection) (v : list float64) (text : string) :
  dense (coll_points col) →
  dense (store_point (coll_points col) (new_point col v text)).
Proof.
  intros Hd i Hi. unfold store_point in *.
  rewrite map_size_insert_None by (apply store_new_point_fresh, Hd).
  cbn [point_id new_point] in *.
  destruct (decide (i = (N.of_nat (size (coll_points col)) + 1)%N)) as [->|Hne]; [lia|].
  rewrite lookup_insert_ne in Hi by congruence. apply Hd in Hi. lia.
Qed.

Lemma store_new_point_keeps (col : Collection) (v : list float64) (text : string) i x :
  dense (coll_points col) →
  coll_points col !! i = Some x →
  store_point (coll_points col) (new_point col v text) !! i = Some x.
Proof.
  intros Hd Hx. unfold store_point. rewrite lookup_insert_ne; [exact Hx|].
  intros Heq. rewrite <- Heq, store_new_point_fresh in Hx by exact Hd. discriminate.
Qed.

Section Primitives.
Variable good : string -> Prop.
Lemma respects_log (e : event) : ok_event good e → respects (progress good) (log e).
Proof. intros He w. apply progress_emit, He. Qed.

Lemma respects_set_session f : respects (progress good) (modify (set_session f)).
Proof. intros w. apply progress_silent; reflexivity. Qed.

Lemma respects_set_cache c : respects (progress good) (modify (set_cache c)).
Proof. intros w. apply progress_silent; reflexivity. Qed.

(** Leaves of a statement that only reads, renders, logs and writes the
    session or the cache. *)
Ltac respects_leaf :=
  first [ apply respects_set_session | apply respects_set_cache
        | apply respects_log; exact I ].

Ltac respects_auto :=
  unfold st_error, st_info, st_render, st_stop, st_rerun, time_sleep, pass,
    os_getenv, session_getitem, session_get, session_setitem,
    not_found, dimension_error;
  repeat (respects_split; try respects_leaf).

Lemma respects_session_setitem key v : respects (progress good) (session_setitem key v).
Proof. respects_auto. Qed.

Lemma respects_session_getitem key : respects (progress good) (session_getitem key).
Proof. respects_auto. Qed.

Lemma respects_request {A} (c : qdrant_call) (k : Server -> M A) :
  ok_event good (Qdrant c) → (∀ s, respects (progress good) (k s)) → respects (progress good) (request c k).
Proof.
  intros Hc Hk. unfold request. respects_split; [apply respects_log, Hc|apply Hk].
Qed.

Lemma respects_get_qdrant_client : respects (progress good) get_qdrant_client.
Proof. unfold get_qdrant_client. respects_auto. Qed.

Lemma respects_get_health c : respects (progress good) (get_health c).
Proof. unfold get_health. respects_auto. Qed.

Lemma respects_collection_exists c name : respects (progress good) (collection_exists c name).
Proof.
  unfold collection_exists. apply respects_request; [exact I|]. intros s. respects_auto.
Qed.

Lemma respects_scroll c name limit offset : respects (progress good) (scroll c name limit offset).
Proof. unfold scroll. apply respects_request; [exact I|]. intros s. respects_auto. Qed.

Lemma respects_search c name v limit offset : respects (progress good) (search c name v limit offset).
Proof. unfold search. apply respects_request; [exact I|]. intros s. respects_auto. Qed.

Lemma respects_get_embeddings text : respects (progress good) (get_embeddings text).
Proof. unfold get_embeddings, get_openai_client. respects_auto. Qed.

Lemma respects_transcribe_audio audio : respects (progress good) (transcribe_audio audio).
Proof. unfold transcribe_audio, get_openai_client, bytes_io. respects_auto. Qed.

Lemma respects_test_qdrant_connection : respects (progress good) test_qdrant_connection.
Proof. unfold test_qdrant_connection. respects_auto. Qed.

Lemma respects_mapM {A B} (f : A -> M B) (l : list A) :
  (∀ x, respects (progress good) (f x)) → respects (progress good) (mapM f l).
Proof.
  intros Hf. induction l as [|x l IH]; cbn [mapM]; respects_split; auto.
Qed.

Lemma respects_list_notes_from_db query offset limit :
  respects (progress good) (list_notes_from_db query offset limit).
Proof.
  unfold list_notes_from_db.
  respects_seq; [apply respects_get_qdrant_client|intros c].
  respects_seq.
  - destruct (negb _); respects_auto.
  - intros notes. apply respects_mapM. intros note.
    unfold payload_getitem, note_score. respects_auto.
Qed.

(** Creating the [notes] collection: it was missing, so no note is lost. *)
Lemma respects_create_collection c size distance :
  respects (progress good) (create_collection c QDRANT_COLLECTION_NAME size distance).
Proof.
  intros w.
  destruct (srv_down (server w)) as [msg|] eqn:Hd.
  - unfold create_collection. rewrite (request_down _ _ _ _ Hd).
    apply progress_emit. exact I.
  - destruct (srv_collections (server w) !! QDRANT_COLLECTION_NAME) eqn:Hcol.
    + unfold create_collection. rewrite (request_up _ _ _ Hd), Hcol.
      apply progress_emit. exact I.
    + rewrite create_collection_fresh by assumption. cbn [snd].
      assert (notes_points
                (set_collections
                   (<[QDRANT_COLLECTION_NAME := mkCollection size distance ∅]>
                      (srv_collections (server w)))
                   (emit (Qdrant (CreateCollection QDRANT_COLLECTION_NAME size distance)) w))
              = ∅) as Hnew.
      { unfold notes_points. world_simpl. rewrite lookup_insert_eq. reflexivity. }
      split; [|split].
      * intros _. rewrite Hnew. split; [apply dense_empty|].
        assert (notes_points w = ∅) as Hold
          by (unfold notes_points; rewrite Hcol; reflexivity).
        intros i x Hx. rewrite Hold, lookup_empty in Hx. discriminate.
      * intros i x Hx. rewrite Hnew, lookup_empty in Hx. discriminate.
      * exists [Qdrant (CreateCollection QDRANT_COLLECTION_NAME size distance)].
        split; [reflexivity|]. repeat constructor.
Qed.

Lemma respects_assure_db_collection_exists : respects (progress good) assure_db_collection_exists.
Proof.
  unfold assure_db_collection_exists.
  respects_seq; [apply respects_get_qdrant_client|intros c].
  respects_seq; [apply respects_test_qdrant_connection|intros connected].
  destruct (negb connected); [respects_auto|].
  respects_catch; [|intros e; respects_auto].
  respects_seq; [respects_auto|intros _].
  respects_seq; [apply respects_collection_exists|intros found].
  destruct (negb found); [|respects_auto].
  respects_seq; [respects_auto|intros _].
  respects_seq; [apply respects_create_collection|intros _].
  respects_auto.
Qed.
(** [add_note_to_db] with a good text: however it ends. *)
Lemma respects_add_note_to_db text : good text → respects (progress good) (add_note_to_db text).
Proof.
  intros Hgood w.
  assert (∀ col v, ok_event good
            (Qdrant (Upsert QDRANT_COLLECTION_NAME [new_point col v text]))) as Hup.
  { intros col v. repeat constructor. exists text.
    split; [apply lookup_singleton_eq|exact Hgood]. }
  assert (∀ c, progress good w (counted c w)) as Hcount.
  { intros c. apply progress_then_emit; [|exact I]. apply progress_silent; reflexivity. }
  destruct (add_note_to_db_spec text w)
    as [c msg Hd|c Hd Hcol|c col Hd Hcol Hk|c col key e Hd Hcol Hk Hv
       |c col key v Hd Hcol Hk Hv Hlen|c col key v Hd Hcol Hk Hv Hlen]; cbn [snd].
  - apply Hcount.
  - apply Hcount.
  - apply Hcount.
  - apply progress_then_emit; [apply Hcount|exact I].
  - apply progress_then_emit; [|apply Hup].
    apply progress_then_emit; [apply Hcount|exact I].
  - assert (notes_points w = coll_points col) as Hold
      by (unfold notes_points; rewrite Hcol; reflexivity).
    match goal with |- progress _ _ ?w' =>
      assert (notes_points w' = store_point (coll_points col) (new_point col v text))
        as Hnew by (unfold notes_points; world_simpl; rewrite lookup_insert_eq; reflexivity)
    end.
    split; [|split].
    + intros Hdense. rewrite Hnew. rewrite Hold in Hdense |- *.
      split; [apply store_new_point_dense, Hdense|].
      intros i x. apply store_new_point_keeps, Hdense.
    + intros i x. rewrite Hnew, Hold. unfold store_point.
      intros [[_ <-]|[_ Hx]]%lookup_insert_Some; [right|left; exact Hx].
      exists text. split; [apply lookup_singleton_eq|exact Hgood].
    + exists [Qdrant (Count QDRANT_COLLECTION_NAME); Embed text;
              Qdrant (Upsert QDRANT_COLLECTION_NAME [new_point col v text])].
      unfold counted. world_simpl. rewrite <- !app_assoc. split; [reflexivity|].
      repeat constructor. exists text. split; [apply lookup_singleton_eq|exact Hgood].
Qed.

Lemma respects_check_api_key inp : respects (progress good) (check_api_key inp).
Proof. unfold check_api_key. respects_auto. Qed.

Lemma respects_init_session : respects (progress good) init_session.
Proof. unfold init_session, init_key. respects_auto. Qed.

Lemma respects_note_audio_captured md5_hexdigest audio :
  respects (progress good) (note_audio_captured md5_hexdigest audio).
Proof. unfold note_audio_captured, md5. respects_auto. Qed.

(** The save button: the note is saved only when its text is truthy, and
    the text saved is the one that was tested. *)
Lemma respects_save_section inp :
  (∀ text, text ≠ EmptyString → good text) → respects (progress good) (save_section inp).
Proof.
  intros Hgood w. unfold save_section, save_note, st_button, expect_str.
  destruct (session_state w !! "note_text") as [v|] eqn:Hn.
  2:{ rewrite run_bind. unfold session_getitem. unfold_monad. rewrite Hn. reflexivity. }
  run_with (session_getitem_run w _ v Hn).
  destruct (truthy v) eqn:Ht; [|reflexivity].
  rewrite run_bind, run_bind, (session_getitem_run w _ v Hn). cbv beta iota.
  rewrite Ht. cbn [negb]. unfold st_render, log, modify. rewrite run_bind. cbv beta iota.
  unfold mret, M_ret, ret at 1. cbv beta iota.
  destruct (in_save inp); cbn [andb]; [|apply progress_emit; exact I].
  rewrite run_bind, (session_getitem_run (emit _ w) _ v Hn). cbv beta iota.
  destruct v as [|text|b]; cbn in Ht; try discriminate.
  - rewrite run_bind. unfold ret at 1. cbv beta iota.
    etrans; [|apply respects_add_note_to_db, Hgood; intros ->; discriminate].
    apply progress_emit. exact I.
  - apply progress_emit. exact I.
Qed.

Lemma respects_add_tab md5_hexdigest inp :
  (∀ text, text ≠ EmptyString → good text) → respects (progress good) (add_tab md5_hexdigest inp).
Proof.
  intros Hgood. unfold add_tab.
  respects_seq; [respects_auto|intros _].
  destruct (in_note_audio inp) as [audio|]; [|respects_auto].
  respects_seq; [apply respects_note_audio_captured|intros _].
  respects_seq; [respects_auto|intros _].
  respects_seq; [unfold st_button; respects_auto|intros transcribe].
  respects_seq.
  { destruct transcribe; [|respects_auto].
    respects_seq; [respects_auto|intros b].
    respects_seq; [apply respects_transcribe_audio|intros text]. respects_auto. }
  intros _. respects_seq; [respects_auto|intros note_audio_text].
  respects_seq.
  { destruct (truthy note_audio_text); [|respects_auto].
    unfold st_text_area, expect_str. respects_auto. }
  intros _. apply respects_save_section, Hgood.
Qed.

Lemma respects_script md5_hexdigest inp :
  (∀ text, text ≠ EmptyString → good text) → respects (progress good) (script md5_hexdigest inp).
Proof.
  intros Hgood. unfold script.
  respects_seq; [respects_auto|intros _].
  respects_seq; [apply respects_check_api_key|intros _].
  respects_seq; [apply respects_init_session|intros _].
  respects_seq; [respects_auto|intros _].
  respects_seq; [apply respects_assure_db_collection_exists|intros _].
  respects_seq; [respects_auto|intros _].
  apply respects_add_tab, Hgood.
Qed.
End Primitives.

(** ** Steps of the system *)

Lemma perform_progress (op : operation) (w : World) :
  progress (λ _, True) w (perform op w).
Proof.
  destruct op as [|text|query offset limit|audio|md5_hexdigest inp]; cbn [perform].
  - apply respects_assure_db_collection_exists.
  - apply respects_add_note_to_db. exact I.
  - apply respects_list_notes_from_db.
  - apply respects_transcribe_audio.
  - apply respects_script. auto.
Qed.

Lemma step_keeps_notes (w w' : World) : step w w' → keeps_notes w w'.
Proof.
  intros [op w1|w1 w2 Hs].
  - apply perform_progress.
  - apply keeps_notes_same, Hs.
Qed.

Lemma evolves_keeps_notes (w w' : World) : evolves w w' → keeps_notes w w'.
Proof.
  induction 1 as [w|w1 w2 w3 Hstep _ IH]; [reflexivity|].
  etrans; [apply step_keeps_notes, Hstep|exact IH].
Qed.

(** A run of [add_note_to_db] that returns has stored its point. *)
Lemma add_note_to_db_returned (text : string) (w w' : World) :
  add_note_to_db text w = (Ret tt, w') →
  ∃ col key v,
    srv_collections (server w) !! QDRANT_COLLECTION_NAME = Some col ∧
    session_state w !! "openai_api_key" = Some key ∧
    embeddings_create (openai w) key text = Ok v ∧
    notes_points w' = store_point (coll_points col) (new_point col v text).
Proof.
  intros Hrun. pose proof (add_note_to_db_spec text w) as Hspec. rewrite Hrun in Hspec.
  inversion Hspec as [| | | | |c col key v Hd Hcol Hk Hv Hlen Hw']; subst.
  exists col, key, v. repeat split; try assumption.
  unfold notes_points. world_simpl. rewrite lookup_insert_eq. reflexivity.
Qed.

(** ** Secret resolver *)

(** C6: [get_secret key] returns the secret store's value when the key is
    there; otherwise the process environment's value when the key is there;
    and when both lack the key it raises the resolver's error, a
    [ValueError] that names the key (the error the specification calls
    MissingSecretError).  The world is left as it was. *)
Theorem get_secret_resolution (w : World) (key : string) :
  (∀ v, secrets w !! key = Some v → get_secret key w = (Ret v, w)) ∧
  (∀ v, secrets w !! key = None → environ w !! key = Some v →
        get_secret key w = (Ret v, w)) ∧
  (secrets w !! key = None → environ w !! key = None →
   get_secret key w =
     (Raise (Exn ValueError
               ("Secret '" +:+ key +:+
                "' not found in Streamlit secrets or .env environment variables.")),
      w)).
Proof.
  unfold get_secret. unfold_monad.
  repeat split; intros; repeat match goal with H : _ !! _ = _ |- _ => rewrite H end;
    reflexivity.
Qed.

Lemma get_secret_resolution_witness :
  get_secret "QDRANT_URL" (world_of cloud_secrets local_environ)
    = (Ret "https://cloud.example", world_of cloud_secrets local_environ) ∧
  get_secret "QDRANT_URL" (world_of ∅ local_environ)
    = (Ret "http://localhost:6333", world_of ∅ local_environ) ∧
  fst (get_secret "QDRANT_URL" (world_of ∅ ∅))
    = Raise (Exn ValueError
        "Secret 'QDRANT_URL' not found in Streamlit secrets or .env environment variables.").
Proof.
  split; [|split].
  - apply (proj1 (get_secret_resolution _ "QDRANT_URL")). reflexivity.
  - apply (proj1 (proj2 (get_secret_resolution _ "QDRANT_URL"))); reflexivity.
  - rewrite (proj2 (proj2 (get_secret_resolution (world_of ∅ ∅) "QDRANT_URL")));
      reflexivity.
Defined.

(** ** Qdrant client construction *)

(** The client is built from the process environment as it is then. *)
Lemma get_qdrant_client_fresh (w : World) :
  client_cache w = None →
  get_qdrant_client w =
    (Ret (mkClient (environ w !! "QDRANT_URL") (environ w !! "QDRANT_API_KEY")),
     set_cache (Some (mkClient (environ w !! "QDRANT_URL")
                               (environ w !! "QDRANT_API_KEY"))) w).
Proof.
  intros Hc. unfold get_qdrant_client. unfold_monad. rewrite Hc. reflexivity.
Qed.

Lemma lookup_exported (sec envr : gmap string string) (key : string) :
  (sec ∪ envr) !! key =
    match sec !! key with
    | Some v => Some v
    | None => envr !! key
    end.
Proof.
  rewrite lookup_union. destruct (sec !! key), (envr !! key); reflexivity.
Qed.

(** The module level leaves an environment in which every secret has
    replaced the variable of its name, and the variables of the [.env] file
    fill in what was not set. *)
Lemma module_level_run (dotenv_file : gmap string string) (w : World) :
  ∃ w1,
    module_level dotenv_file w = (Ret (env dotenv_file w), w1) ∧
    secrets w1 = secrets w ∧
    client_cache w1 = client_cache w ∧
    ∀ key, environ w1 !! key =
             match secrets w !! key with
             | Some v => Some v
             | None => (environ w ∪ dotenv_file) !! key
             end.
Proof.
  unfold module_level, load_dotenv, st_secrets_contains, st_secrets_getitem, env.
  unfold_monad. unfold export_secrets. cbn.
  destruct (secrets w !! "QDRANT_URL") as [url|] eqn:Hurl;
    destruct (secrets w !! "QDRANT_API_KEY") as [api|] eqn:Hapi;
    cbn; repeat (first [rewrite Hurl | rewrite Hapi]; cbn);
    (eexists; split; [reflexivity|]); cbn;
    (split; [reflexivity|]); (split; [reflexivity|]);
    intros key; rewrite !lookup_exported; destruct (secrets w !! key); reflexivity.
Qed.

(** C5: when the vector-store client is constructed, after the module
    level has run, its URL and its API key are the secret store's values
    where the secret store has them, in preference to the values of the
    process environment and of the [.env] file, which are used where the
    secret store has none; and they are the values the secret resolver
    returns for [QDRANT_URL] and [QDRANT_API_KEY] whenever it returns. *)
Theorem client_prefers_secret_store (w : World) (dotenv_file : gmap string string) :
  client_cache w = None →
  ∃ envd w1 c w2,
    module_level dotenv_file w = (Ret envd, w1) ∧
    get_qdrant_client w1 = (Ret c, w2) ∧
    (∀ v, secrets w !! "QDRANT_URL" = Some v → client_url c = Some v) ∧
    (∀ v, secrets w !! "QDRANT_API_KEY" = Some v → client_api_key c = Some v) ∧
    (secrets w !! "QDRANT_URL" = None →
     client_url c = (environ w ∪ dotenv_file) !! "QDRANT_URL") ∧
    (secrets w !! "QDRANT_API_KEY" = None →
     client_api_key c = (environ w ∪ dotenv_file) !! "QDRANT_API_KEY") ∧
    (∀ v, (get_secret "QDRANT_URL" w1).1 = Ret v → client_url c = Some v) ∧
    (∀ v, (get_secret "QDRANT_API_KEY" w1).1 = Ret v → client_api_key c = Some v).
Proof.
  intros Hcache.
  destruct (module_level_run dotenv_file w) as (w1 & Hrun & Hsec & Hc & Henv).
  rewrite Hcache in Hc.
  exists (env dotenv_file w), w1. do 2 eexists.
  split; [exact Hrun|]. split; [apply get_qdrant_client_fresh, Hc|].
  cbn [client_url client_api_key]. rewrite !Henv.
  assert (∀ key v, (get_secret key w1).1 = Ret v → environ w1 !! key = Some v) as Hres.
  { intros key v. unfold get_secret. unfold_monad. rewrite Henv, Hsec.
    destruct (secrets w !! key) as [x|]; cbn; [congruence|].
    destruct ((environ w ∪ dotenv_file) !! key); cbn; congruence. }
  repeat split.
  - intros v Hv. rewrite Hv. reflexivity.
  - intros v Hv. rewrite Hv. reflexivity.
  - intros Hv. rewrite Hv. reflexivity.
  - intros Hv. rewrite Hv. reflexivity.
  - intros v Hv. rewrite <- Henv. apply Hres, Hv.
  - intros v Hv. rewrite <- Henv. apply Hres, Hv.
Qed.

Lemma client_prefers_secret_store_witness :
  ∃ envd w1 c w2,
    module_level ∅ (world_of cloud_secrets local_environ) = (Ret envd, w1) ∧
    get_qdrant_client w1 = (Ret c, w2) ∧
    client_url c = Some "https://cloud.example" ∧
    client_api_key c = Some "cloud-key".
Proof.
  destruct (client_prefers_secret_store (world_of cloud_secrets local_environ) ∅ eq_refl)
    as (envd & w1 & c & w2 & Hrun & Hclient & Hurl & Hkey & _).
  exists envd, w1, c, w2. repeat split; try assumption.
  - apply Hurl. reflexivity.
  - apply Hkey. reflexivity.
Defined.

(** ** Transcription *)

(** C7: whatever the audio bytes, when the provider answers the
    transcription request with an error, [transcribe_audio] shows the
    error to the user with [st.error] and returns the empty string; and in
    every world and for every argument it returns normally, so no exception
    reaches its caller. *)
Theorem transcribe_audio_swallows_errors (w : World) (audio : bytes) :
  (∀ key e,
     session_state w !! "openai_api_key" = Some key →
     transcriptions_create (openai w) key audio = Err e →
     transcribe_audio (PyBytes audio) w =
       (Ret EmptyString,
        emit (StError ("Nie udało się przetworzyć audio: " +:+ exn_str e))
             (emit (Transcribe audio) w))) ∧
  (∀ v, ∃ text w', transcribe_audio v w = (Ret text, w')).
Proof.
  split.
  - intros key e Hk He. unfold transcribe_audio, get_openai_client, bytes_io.
    unfold_monad. rewrite Hk. cbn. rewrite He. reflexivity.
  - intros v. unfold transcribe_audio, get_openai_client, bytes_io. unfold_monad.
    destruct (session_state w !! "openai_api_key") as [key|]; [|eauto].
    destruct v as [|s|b]; cbn; [| eauto |].
    + destruct (transcriptions_create (openai w) key []); eauto.
    + destruct (transcriptions_create (openai w) key b); eauto.
Qed.

Lemma transcribe_audio_swallows_errors_witness :
  transcribe_audio (PyBytes [x49; x44; x33]%byte) (keyed_world idle_server failing_provider) =
    (Ret EmptyString,
     emit (StError "Nie udało się przetworzyć audio: 429 insufficient_quota")
          (emit (Transcribe [x49; x44; x33]%byte) (keyed_world idle_server failing_provider))).
Proof.
  apply (proj1 (transcribe_audio_swallows_errors
                  (keyed_world idle_server failing_provider) [x49; x44; x33]%byte)
           (PyStr "sk-test") (Exn OpenAIError "429 insufficient_quota"));
    reflexivity.
Defined.

(** ** Collection assurance *)

(** C4, as the code has it: when the server cannot be reached,
    [assure_db_collection_exists] runs the health probe, shows its failure
    with [st.error] and returns to the script; it sends neither the
    collection-existence check nor a creation request, and the server is
    left as it was.  It does not stop the script. *)
Theorem assure_returns_when_unreachable (w : World) (msg : string) :
  srv_down (server w) = Some msg →
  ∃ w', assure_db_collection_exists w = (Ret tt, w') ∧
        trace w' =
          (trace w ++
             [StError "Nie udało się połączyć z Qdrant: 'QdrantClient' object has no attribute 'get_health'"])%list ∧
        server w' = server w ∧
        session_state w' = session_state w.
Proof.
  intros _. destruct (assure_run w) as [c Hrun].
  eexists. split; [exact Hrun|]. world_simpl. auto.
Qed.

Lemma assure_returns_when_unreachable_witness :
  ∃ w', assure_db_collection_exists down_world = (Ret tt, w') ∧
        trace w' =
          ([] ++
             [StError "Nie udało się połączyć z Qdrant: 'QdrantClient' object has no attribute 'get_health'"])%list ∧
        server w' = down_server ∧
        session_state w' = {["openai_api_key" := PyStr "sk-test"]}.
Proof.
  apply (assure_returns_when_unreachable down_world "Connection refused").
  reflexivity.
Defined.

(** C4 fails as stated: with the server down, the collection assurance
    returns normally instead of stopping the script, and the run of the
    script goes on to render the tabs and the recorder. *)
Lemma assure_does_not_halt :
  ¬ halts_when_unreachable down_world ∧
  (script plain_digest idle_visit down_world).1 = Ret tt ∧
  trace (script plain_digest idle_visit down_world).2 =
    [StRender "set_page_config";
     SessionSet "note_audio_bytes_md5" PyNone;
     SessionSet "note_audio_bytes" PyNone;
     SessionSet "note_text" (PyStr EmptyString);
     SessionSet "note_audio_text" (PyStr EmptyString);
     StRender "title";
     StError "Nie udało się połączyć z Qdrant: 'QdrantClient' object has no attribute 'get_health'";
     StRender "tabs";
     StRender "audiorecorder"].
Proof.
  split; [|split; vm_compute; reflexivity].
  intros H. destruct H as [w' Hw']; [eexists; reflexivity|].
  vm_compute in Hw'. discriminate.
Qed.

(** C8: the code is not the idempotent assurance of the specification
    (section 4.4), whose second call never errors.  Line 69 calls a
    method that the client does not have, so on every server, reachable or
    not, with or without the [notes] collection, each call of
    [assure_db_collection_exists] shows a connection error and returns at
    line 81.  Two calls in a row therefore show the error twice, the second
    call included, and leave the server as it was: a missing collection is
    never created. *)
Theorem assure_twice_reports_twice (w : World) :
  ∃ w1 w2,
    assure_db_collection_exists w = (Ret tt, w1) ∧
    assure_db_collection_exists w1 = (Ret tt, w2) ∧
    server w1 = server w ∧
    server w2 = server w ∧
    trace w1 =
      (trace w ++
         [StError "Nie udało się połączyć z Qdrant: 'QdrantClient' object has no attribute 'get_health'"])%list ∧
    trace w2 =
      (trace w1 ++
         [StError "Nie udało się połączyć z Qdrant: 'QdrantClient' object has no attribute 'get_health'"])%list.
Proof.
  destruct (assure_run w) as [c H1].
  match type of H1 with _ = (_, ?w1) => destruct (assure_run w1) as [c' H2] end.
  do 2 eexists. split; [exact H1|]. split; [exact H2|].
  world_simpl. auto.
Qed.

(** ** Session manager *)

(** C3: when new audio arrives, and its digest differs from the stored
    one, the script writes the empty string to the transcript key
    ([note_audio_text]) and to the edited-text key ([note_text]), in that
    order and before it writes the new digest; when the digest equals the
    stored one it writes to none of the three keys, and both texts stay as
    they were.  The stored digest is the value under
    [note_audio_bytes_md5], a key that the session initialisation provides
    ([init_session_provides]). *)
Theorem audio_digest_change_clears_texts
    (md5_hexdigest : bytes -> string) (w : World) (audio : bytes) (stored : pyval) :
  session_state w !! "note_audio_bytes_md5" = Some stored →
  ∃ w', note_audio_captured md5_hexdigest audio w = (Ret tt, w') ∧
    (stored ≠ PyStr (md5_hexdigest audio) →
       trace w' = (trace w ++
                     [SessionSet "note_audio_bytes" (PyBytes audio);
                      SessionSet "note_audio_text" (PyStr EmptyString);
                      SessionSet "note_text" (PyStr EmptyString);
                      SessionSet "note_audio_bytes_md5" (PyStr (md5_hexdigest audio))])%list ∧
       session_state w' !! "note_audio_text" = Some (PyStr EmptyString) ∧
       session_state w' !! "note_text" = Some (PyStr EmptyString) ∧
       session_state w' !! "note_audio_bytes_md5" = Some (PyStr (md5_hexdigest audio))) ∧
    (stored = PyStr (md5_hexdigest audio) →
       trace w' = (trace w ++ [SessionSet "note_audio_bytes" (PyBytes audio)])%list ∧
       session_state w' !! "note_audio_text" = session_state w !! "note_audio_text" ∧
       session_state w' !! "note_text" = session_state w !! "note_text" ∧
       session_state w' !! "note_audio_bytes_md5" = Some stored).
Proof.
  intros Hs. unfold note_audio_captured.
  rewrite run_bind, session_setitem_run. cbv beta iota.
  rewrite run_bind, (session_getitem_run _ _ (PyBytes audio))
    by (world_simpl; apply lookup_insert_eq).
  cbv beta iota. rewrite run_bind. cbn [md5]. unfold mret, M_ret, ret at 1. cbv beta iota.
  rewrite run_bind, (session_getitem_run _ _ stored)
    by (world_simpl; rewrite lookup_insert_ne by discriminate; exact Hs).
  cbv beta iota.
  destruct (decide (stored = PyStr (md5_hexdigest audio))) as [Heq|Hne].
  - rewrite bool_decide_eq_false_2 by tauto.
    eexists. split; [reflexivity|]. split; [tauto|]. intros _. world_simpl.
    rewrite !lookup_insert_ne by discriminate. auto.
  - rewrite bool_decide_eq_true_2 by assumption.
    eexists. split; [reflexivity|]. split; [|tauto]. intros _. world_simpl.
    rewrite <- !app_assoc. cbn [app].
    split; [reflexivity|].
    split; [rewrite !lookup_insert_ne by discriminate; apply lookup_insert_eq|].
    split; [rewrite lookup_insert_ne by discriminate; apply lookup_insert_eq|].
    apply lookup_insert_eq.
Qed.

Lemma audio_digest_change_clears_texts_witness :
  ∃ w', note_audio_captured plain_digest [x49; x44; x33]%byte stale_world = (Ret tt, w') ∧
        session_state w' !! "note_audio_text" = Some (PyStr EmptyString) ∧
        session_state w' !! "note_text" = Some (PyStr EmptyString).
Proof.
  destruct (audio_digest_change_clears_texts plain_digest stale_world
              [x49; x44; x33]%byte (PyStr "old") eq_refl)
    as (w' & Hrun & Hne & _).
  exists w'. split; [exact Hrun|].
  destruct Hne as (_ & Ht & Hn & _); [discriminate|]. split; assumption.
Defined.

(** ** Adding notes *)

(** C2: with the server up, the [notes] collection in place and the
    provider returning an embedding of the collection's dimension,
    [add_note_to_db text] asks for the exact point count, and upserts one
    point whose identifier is that count plus one, whose vector is the
    embedding and whose payload is the text; the point is then stored under
    that identifier.  In particular, on a collection without points a first
    call stores its note under identifier 1 and a second call stores its
    note under identifier 2. *)
Theorem add_note_identifier_is_count_plus_one :
  (∀ (w : World) (col : Collection) (key : pyval) (text : string) (v : list float64),
     srv_down (server w) = None →
     srv_collections (server w) !! QDRANT_COLLECTION_NAME = Some col →
     session_state w !! "openai_api_key" = Some key →
     embeddings_create (openai w) key text = Ok v →
     N.of_nat (length v) = coll_size col →
     ∃ w' col',
       add_note_to_db text w = (Ret tt, w') ∧
       trace w' = (trace w ++
                     [Qdrant (Count QDRANT_COLLECTION_NAME); Embed text;
                      Qdrant (Upsert QDRANT_COLLECTION_NAME
                                [mkPoint (N.of_nat (size (coll_points col)) + 1) v
                                         {["text" := text]}])])%list ∧
       srv_collections (server w') !! QDRANT_COLLECTION_NAME = Some col' ∧
       coll_points col' =
         <[(N.of_nat (size (coll_points col)) + 1)%N := mkStored v {["text" := text]}]>
           (coll_points col)) ∧
  (∀ (w : World) (col : Collection) (key : pyval) (t1 t2 : string) (v1 v2 : list float64),
     srv_down (server w) = None →
     srv_collections (server w) !! QDRANT_COLLECTION_NAME = Some col →
     coll_points col = ∅ →
     session_state w !! "openai_api_key" = Some key →
     embeddings_create (openai w) key t1 = Ok v1 →
     embeddings_create (openai w) key t2 = Ok v2 →
     N.of_nat (length v1) = coll_size col →
     N.of_nat (length v2) = coll_size col →
     ∃ w1 w2 col2,
       add_note_to_db t1 w = (Ret tt, w1) ∧
       add_note_to_db t2 w1 = (Ret tt, w2) ∧
       srv_collections (server w2) !! QDRANT_COLLECTION_NAME = Some col2 ∧
       coll_points col2 !! 1%N = Some (mkStored v1 {["text" := t1]}) ∧
       coll_points col2 !! 2%N = Some (mkStored v2 {["text" := t2]}) ∧
       size (coll_points col2) = 2).
Proof.
  split.
  - intros w col key text v Hd Hcol Hk Hv Hlen.
    destruct (add_note_to_db_run w col key text v Hd Hcol Hk Hv Hlen) as [c Hrun].
    do 2 eexists. split; [exact Hrun|]. world_simpl.
    rewrite <- !app_assoc. cbn [app].
    split; [reflexivity|]. split; [apply lookup_insert_eq|]. reflexivity.
  - intros w col key t1 t2 v1 v2 Hd Hcol Hempty Hk Hv1 Hv2 Hl1 Hl2.
    destruct (add_note_to_db_run w col key t1 v1 Hd Hcol Hk Hv1 Hl1) as [c Hrun1].
    match type of Hrun1 with _ = (_, ?w1) =>
      destruct (add_note_to_db_run w1
                  (mkCollection (coll_size col) (coll_distance col)
                     (store_point (coll_points col) (new_point col v1 t1)))
                  key t2 v2) as [c' Hrun2]
    end; try assumption.
    { world_simpl. apply lookup_insert_eq. }
    do 3 eexists. split; [exact Hrun1|]. split; [exact Hrun2|]. world_simpl.
    split; [apply lookup_insert_eq|].
    unfold store_point, new_point. cbn [coll_points point_id point_vector point_payload].
    rewrite Hempty, map_size_empty, map_size_insert_None, map_size_empty
      by apply lookup_empty.
    change (N.of_nat 0 + 1)%N with 1%N. change (N.of_nat 1 + 1)%N with 2%N.
    split; [rewrite lookup_insert_ne by discriminate; apply lookup_insert_eq|].
    split; [apply lookup_insert_eq|].
    rewrite map_size_insert_None, map_size_insert_None, map_size_empty; [done|..].
    + apply lookup_empty.
    + rewrite lookup_insert_ne by discriminate. apply lookup_empty.
Qed.

Lemma add_note_identifier_is_count_plus_one_witness :
  ∃ w1 w2 col2,
    add_note_to_db "buy milk" empty_store_world = (Ret tt, w1) ∧
    add_note_to_db "call mom" w1 = (Ret tt, w2) ∧
    srv_collections (server w2) !! QDRANT_COLLECTION_NAME = Some col2 ∧
    coll_points col2 !! 1%N = Some (mkStored [8%Z; 7%Z] {["text" := "buy milk"]}) ∧
    coll_points col2 !! 2%N = Some (mkStored [8%Z; 7%Z] {["text" := "call mom"]}) ∧
    size (coll_points col2) = 2.
Proof.
  apply (proj2 add_note_identifier_is_count_plus_one empty_store_world
           (mkCollection 2 COSINE ∅) (PyStr "sk-test"));
    reflexivity.
Defined.

(** ** Listing notes *)

(** C1 (listing): the code does not return the three entries.  With the
    server up, for every [notes] collection that holds at least one point
    and whose points all carry a text, and for every positive limit, the
    unfiltered listing from offset 0 ends in an [AttributeError] instead of
    a result: it reads [score] from the first record that [scroll]
    returned, and records have no score. *)
Theorem listing_raises_on_stored_notes
    (w : World) (col : Collection) (limit : N) :
  srv_down (server w) = None →
  srv_collections (server w) !! QDRANT_COLLECTION_NAME = Some col →
  coll_points col ≠ ∅ →
  (∀ i x, coll_points col !! i = Some x → is_Some (stored_payload x !! "text")) →
  (0 < limit)%N →
  ∃ w', list_notes_from_db None 0 limit w =
          (Raise (Exn AttributeError "'Record' object has no attribute 'score'"), w').
Proof.
  intros Hd Hcol Hne Htext Hlim. unfold list_notes_from_db.
  destruct (get_qdrant_client_run w) as [c Hc]. run_with Hc.
  cbn [from_option truthy negb]. rewrite run_bind, run_bind.
  rewrite (scroll_run _ _ _ _ _ col) by assumption. cbv beta iota.
  destruct (by_id_first _ Hne) as (p & rest & Hsort & Hp). rewrite Hsort.
  rewrite filter_cons_True by (cbn; lia).
  destruct (N.to_nat limit) as [|n] eqn:Hn; [lia|].
  destruct (Htext _ _ Hp) as [text Ht].
  unfold_monad. unfold payload_getitem. cbn. rewrite Ht. cbn. eauto.
Qed.

Lemma listing_raises_on_stored_notes_witness :
  size three_notes = 3 ∧
  ∃ w', list_notes_from_db None 0 10 three_notes_world =
          (Raise (Exn AttributeError "'Record' object has no attribute 'score'"), w').
Proof.
  split; [reflexivity|].
  apply (listing_raises_on_stored_notes three_notes_world
           (mkCollection 2 COSINE three_notes) 10).
  - reflexivity.
  - reflexivity.
  - intros H. apply (f_equal size) in H. vm_compute in H. discriminate.
  - intros i x Hix. unfold three_notes in Hix. cbn [coll_points] in Hix.
    repeat (apply lookup_insert_Some in Hix as [[_ <-]|[_ Hix]]; [cbn; eauto|]).
    rewrite lookup_empty in Hix. discriminate.
  - reflexivity.
Defined.

(** ** Notes are written once *)

(** C9, as the code has it: take any world the system reaches from a
    store without notes, by its operations one after another in any order
    and with any change of the surroundings in between that leaves the
    stored collections alone.  When [add_note_to_db text] returns there, the point it stored
    (under the count plus one) has the payload [text] and the vector that
    the provider returned for [text] in that call; and however the system
    goes on from there, that point and every point stored before are still
    stored, with the same vector and payload. *)
Theorem stored_note_keeps_its_embedding (w0 w w' w'' : World) (text : string) :
  notes_points w0 = ∅ →
  evolves w0 w →
  add_note_to_db text w = (Ret tt, w') →
  evolves w' w'' →
  ∃ key v,
    session_state w !! "openai_api_key" = Some key ∧
    embeddings_create (openai w) key text = Ok v ∧
    notes_points w' !! (N.of_nat (size (notes_points w)) + 1)%N
      = Some (mkStored v {["text" := text]}) ∧
    notes_points w'' !! (N.of_nat (size (notes_points w)) + 1)%N
      = Some (mkStored v {["text" := text]}) ∧
    ∀ i x, notes_points w !! i = Some x → notes_points w'' !! i = Some x.
Proof.
  intros Hfresh Hreach Hadd Hlater.
  assert (dense (notes_points w)) as Hdense.
  { apply (evolves_keeps_notes _ _ Hreach). rewrite Hfresh. apply dense_empty. }
  destruct (add_note_to_db_returned _ _ _ Hadd) as (col & key & v & Hcol & Hk & Hv & Hnew).
  assert (notes_points w = coll_points col) as Hold
    by (unfold notes_points; rewrite Hcol; reflexivity).
  rewrite Hold in Hdense |- *.
  assert (dense (notes_points w')) as Hdense'
    by (rewrite Hnew; apply store_new_point_dense, Hdense).
  destruct (evolves_keeps_notes _ _ Hlater Hdense') as [_ Hkept].
  assert (notes_points w' !! (N.of_nat (size (coll_points col)) + 1)%N
          = Some (mkStored v {["text" := text]})) as Hstored
    by (rewrite Hnew; apply lookup_insert_eq).
  exists key, v. repeat split; try assumption.
  - apply Hkept, Hstored.
  - intros i x Hx. apply Hkept. rewrite Hnew. apply store_new_point_keeps; assumption.
Qed.

(** The starting point matters: on a collection that another program
    filled with identifiers that are not 1..count, the count plus one can be
    an identifier in use, and the upsert replaces that point. *)
Example foreign_point_replaced :
  notes_points foreign_world !! 2%N = Some (mkStored [1%Z; 1%Z] {["text" := "theirs"]}) ∧
  notes_points (add_note_to_db "mine" foreign_world).2 !! 2%N
    = Some (mkStored [4%Z; 7%Z] {["text" := "mine"]}).
Proof. split; vm_compute; reflexivity. Qed.

(** C9 fails as stated: on a collection whose only point has identifier
    2, [add_note_to_db] stores its note under 2 (the count plus one), and the
    next [add_note_to_db] finds the count still 1 and replaces that note. *)
Lemma stored_note_replaced : ¬ written_once foreign_world.
Proof.
  intros H.
  assert (add_note_to_db "mine" foreign_world =
            (Ret tt, (add_note_to_db "mine" foreign_world).2)) as Hadd
    by (vm_compute; reflexivity).
  assert (notes_points (add_note_to_db "mine" foreign_world).2 !! 2%N =
            Some (mkStored [4%Z; 7%Z] {["text" := "mine"]})) as Hmine
    by (vm_compute; reflexivity).
  pose proof (H _ _ Hadd (AddNote "other") _ _ Hmine) as Hkept.
  vm_compute in Hkept. discriminate.
Qed.

Lemma stored_note_keeps_its_embedding_witness :
  ∃ key v,
    session_state empty_store_world !! "openai_api_key" = Some key ∧
    embeddings_create (openai empty_store_world) key "buy milk" = Ok v ∧
    notes_points (add_note_to_db "buy milk" empty_store_world).2
      !! (N.of_nat (size (notes_points empty_store_world)) + 1)%N
      = Some (mkStored v {["text" := "buy milk"]}) ∧
    notes_points
      (perform (AddNote "call mom") (add_note_to_db "buy milk" empty_store_world).2)
      !! (N.of_nat (size (notes_points empty_store_world)) + 1)%N
      = Some (mkStored v {["text" := "buy milk"]}) ∧
    ∀ i x, notes_points empty_store_world !! i = Some x →
           notes_points
             (perform (AddNote "call mom") (add_note_to_db "buy milk" empty_store_world).2)
             !! i = Some x.
Proof.
  apply (stored_note_keeps_its_embedding empty_store_world empty_store_world
           (add_note_to_db "buy milk" empty_store_world).2
           (perform (AddNote "call mom") (add_note_to_db "buy milk" empty_store_world).2)
           "buy milk").
  - reflexivity.
  - apply rtc_refl.
  - vm_compute. reflexivity.
  - apply rtc_once. apply step_perform.
Defined.

(** ** Saving notes *)

(** C10: in every run of the script, whatever the user did, every upsert
    request that the run sends carries a point whose text is not empty, and
    every point stored after the run was stored before it or has a text
    that is not empty; and when the edited text in the session is empty (or
    [None]), the save section sends nothing, pressed or not. *)
Theorem saved_notes_have_text
    (md5_hexdigest : bytes -> string) (inp : Inputs) (w : World) :
  (∃ evs,
     trace (script md5_hexdigest inp w).2 = (trace w ++ evs)%list ∧
     ∀ name points p,
       Qdrant (Upsert name points) ∈ evs → p ∈ points →
       ∃ text, point_payload p !! "text" = Some text ∧ text ≠ EmptyString) ∧
  (∀ i x,
     notes_points (script md5_hexdigest inp w).2 !! i = Some x →
     notes_points w !! i = Some x ∨
     ∃ text, stored_payload x !! "text" = Some text ∧ text ≠ EmptyString) ∧
  (∀ v, session_state w !! "note_text" = Some v → truthy v = false →
        save_section inp w = (Ret tt, w)).
Proof.
  destruct (respects_script (λ text, text ≠ EmptyString) md5_hexdigest inp (λ _ H, H) w)
    as (_ & Hadds & evs & Htrace & Hok).
  split; [|split].
  - exists evs. split; [exact Htrace|].
    intros name points p Hin Hp.
    rewrite Forall_forall in Hok. specialize (Hok _ Hin). cbn in Hok.
    rewrite Forall_forall in Hok. apply Hok, Hp.
  - exact Hadds.
  - intros v Hv Ht. unfold save_section.
    run_with (session_getitem_run w _ v Hv). rewrite Ht. reflexivity.
Qed.

Lemma saved_notes_have_text_witness :
  save_section (mkInputs EmptyString None false None true)
    (mkWorld ∅ ∅ {["openai_api_key" := PyStr "sk-test"; "note_text" := PyStr EmptyString]}
       None tiny_server tiny_provider [])
  = (Ret tt,
     mkWorld ∅ ∅ {["openai_api_key" := PyStr "sk-test"; "note_text" := PyStr EmptyString]}
       None tiny_server tiny_provider []).
Proof.
  apply (proj2 (proj2 (saved_notes_have_text plain_digest
                         (mkInputs EmptyString None false None true) _)) (PyStr EmptyString));
    reflexivity.
Defined.

(** * Further properties of the code *)

(** ** Adding a note: phases, failures, counting *)

Lemma add_note_to_db_phases (text : string) (w : World) :
  add_note_to_db text w = (add_note_read text ≫= add_note_write) w.
Proof.
  unfold add_note_to_db, add_note_read, add_note_write. rewrite !run_bind.
  destruct (get_qdrant_client w) as [[c|e|h] w1]; [|reflexivity..].
  rewrite !run_bind.
  destruct (count c QDRANT_COLLECTION_NAME w1) as [[n|e|h] w2]; [|reflexivity..].
  rewrite !run_bind.
  destruct (get_embeddings text w2) as [[v|e|h] w3]; reflexivity.
Qed.

(** X1: [add_note_to_db] stores all or nothing.  When it returns, the
    stored collections differ from before only in the [notes] collection,
    and that only in the point under the count plus one, which is now the
    new point (put there, in place of a point that had this identifier if
    there was one); when it raises, the stored collections are as they
    were; and it never stops or reruns the script. *)
Theorem add_note_all_or_nothing (text : string) (w : World) :
  match (add_note_to_db text w).1 with
  | Ret _ =>
      ∃ col v,
        srv_collections (server w) !! QDRANT_COLLECTION_NAME = Some col ∧
        srv_collections (server (add_note_to_db text w).2) =
          <[QDRANT_COLLECTION_NAME :=
              mkCollection (coll_size col) (coll_distance col)
                (<[(N.of_nat (size (coll_points col)) + 1)%N :=
                     mkStored v {["text" := text]}]> (coll_points col))]>
            (srv_collections (server w))
  | Raise _ =>
      srv_collections (server (add_note_to_db text w).2) = srv_collections (server w)
  | Halt _ => False
  end.
Proof.
  destruct (add_note_to_db_spec text w)
    as [c msg Hd|c Hd Hcol|c col Hd Hcol Hk|c col key e Hd Hcol Hk Hv
       |c col key v Hd Hcol Hk Hv Hlen|c col key v Hd Hcol Hk Hv Hlen];
    cbn [fst snd]; try reflexivity.
  exists col, v. split; [exact Hcol|reflexivity].
Qed.

(** X2: on a collection whose identifiers are 1..count, a call of
    [add_note_to_db] that meets a reachable server, an API key and an
    embedding of the right dimension raises the exact count by one. *)
Theorem add_note_raises_count_by_one
    (w : World) (col : Collection) (key : pyval) (text : string) (v : list float64) :
  srv_down (server w) = None →
  srv_collections (server w) !! QDRANT_COLLECTION_NAME = Some col →
  dense (coll_points col) →
  session_state w !! "openai_api_key" = Some key →
  embeddings_create (openai w) key text = Ok v →
  N.of_nat (length v) = coll_size col →
  ∃ c w' w'',
    add_note_to_db text w = (Ret tt, w') ∧
    count c QDRANT_COLLECTION_NAME w' =
      (Ret (N.of_nat (size (coll_points col)) + 1)%N, w'').
Proof.
  intros Hd Hcol Hdense Hk Hv Hlen.
  destruct (add_note_to_db_run w col key text v Hd Hcol Hk Hv Hlen) as [c Hrun].
  exists c. do 2 eexists. split; [exact Hrun|].
  rewrite (count_run _ _ _
             (mkCollection (coll_size col) (coll_distance col)
                (store_point (coll_points col) (new_point col v text))));
    [|exact Hd|world_simpl; apply lookup_insert_eq].
  cbn [coll_points]. unfold store_point.
  rewrite map_size_insert_None by (apply store_new_point_fresh, Hdense).
  rewrite Nat2N.inj_succ, N.add_1_r. reflexivity.
Qed.

Lemma add_note_raises_count_by_one_witness :
  ∃ c w' w'',
    add_note_to_db "buy milk" empty_store_world = (Ret tt, w') ∧
    count c QDRANT_COLLECTION_NAME w' = (Ret (N.of_nat (size (∅ : gmap N Stored)) + 1)%N, w'').
Proof.
  apply (add_note_raises_count_by_one empty_store_world (mkCollection 2 COSINE ∅)
           (PyStr "sk-test") "buy milk" [8%Z; 7%Z]); try reflexivity.
  apply dense_empty.
Defined.

(** X3: a count that has gone stale loses a note.  When one run of
    [add_note_to_db] has read the count and built its point, and another
    run of [add_note_to_db] completes before the first sends its point, the
    first overwrites what the second stored: in the end the collection holds
    the first run's note under the count plus one and is otherwise as it
    was before both. *)
Theorem stale_count_overwrites
    (w : World) (col : Collection) (key : pyval)
    (first second : string) (v1 v2 : list float64) :
  srv_down (server w) = None →
  srv_collections (server w) !! QDRANT_COLLECTION_NAME = Some col →
  session_state w !! "openai_api_key" = Some key →
  embeddings_create (openai w) key first = Ok v1 →
  embeddings_create (openai w) key second = Ok v2 →
  N.of_nat (length v1) = coll_size col →
  N.of_nat (length v2) = coll_size col →
  ∃ prepared w1 w2 w3,
    add_note_read first w = (Ret prepared, w1) ∧
    add_note_to_db second w1 = (Ret tt, w2) ∧
    notes_points w2 !! (N.of_nat (size (coll_points col)) + 1)%N
      = Some (mkStored v2 {["text" := second]}) ∧
    add_note_write prepared w2 = (Ret tt, w3) ∧
    notes_points w3 =
      <[(N.of_nat (size (coll_points col)) + 1)%N := mkStored v1 {["text" := first]}]>
        (coll_points col).
Proof.
  intros Hd Hcol Hk Hv1 Hv2 Hl1 Hl2.
  destruct (get_qdrant_client_run w) as [c Hc].
  assert (add_note_read first w =
            (Ret (c, new_point col v1 first),
             emit (Embed first) (counted c w))) as Hread.
  { unfold add_note_read. run_with Hc.
    rewrite run_bind, (count_run _ _ _ col) by assumption. cbv beta iota.
    rewrite run_bind, (get_embeddings_run _ key _ v1) by assumption. reflexivity. }
  destruct (add_note_to_db_run (emit (Embed first) (counted c w)) col key second v2)
    as [c' Hsecond]; try assumption.
  do 4 eexists. split; [exact Hread|]. split; [exact Hsecond|].
  split.
  { unfold notes_points. world_simpl. rewrite lookup_insert_eq. cbn [from_option coll_points].
    apply lookup_insert_eq. }
  unfold add_note_write. cbn [fst snd].
  rewrite (upsert_run _ _ _ _
             (mkCollection (coll_size col) (coll_distance col)
                (store_point (coll_points col) (new_point col v2 second))));
    [|exact Hd|world_simpl; apply lookup_insert_eq|].
  - split; [reflexivity|]. unfold notes_points. world_simpl.
    rewrite lookup_insert_eq. cbn [from_option coll_points foldl].
    unfold store_point, new_point. cbn [point_id point_vector point_payload].
    apply insert_insert_eq.
  - cbn. unfold dimension_ok. cbn [coll_size].
    rewrite bool_decide_eq_true_2 by exact Hl1. reflexivity.
Qed.

Lemma stale_count_overwrites_witness :
  ∃ prepared w1 w2 w3,
    add_note_read "buy milk" empty_store_world = (Ret prepared, w1) ∧
    add_note_to_db "call mom" w1 = (Ret tt, w2) ∧
    notes_points w2 !! (N.of_nat (size (∅ : gmap N Stored)) + 1)%N
      = Some (mkStored [8%Z; 7%Z] {["text" := "call mom"]}) ∧
    add_note_write prepared w2 = (Ret tt, w3) ∧
    notes_points w3 =
      <[(N.of_nat (size (∅ : gmap N Stored)) + 1)%N :=
          mkStored [8%Z; 7%Z] {["text" := "buy milk"]}]> ∅.
Proof.
  apply (stale_count_overwrites empty_store_world (mkCollection 2 COSINE ∅)
           (PyStr "sk-test") "buy milk" "call mom" [8%Z; 7%Z] [8%Z; 7%Z]);
    reflexivity.
Defined.

(** ** Statements that only look *)

#[global] Instance observes_preorder (P : event -> Prop) : PreOrder (observes P).
Proof.
  split.
  - intros w. repeat split. exists []. rewrite app_nil_r. auto.
  - intros w1 w2 w3 (Hs & He & Hss & Hsrv & Ho & ev12 & Ht12 & Hok12)
      (Hs' & He' & Hss' & Hsrv' & Ho' & ev23 & Ht23 & Hok23).
    repeat split; try congruence.
    exists (ev12 ++ ev23)%list. rewrite Ht23, Ht12, app_assoc.
    split; [reflexivity|]. apply Forall_app; auto.
Qed.

Lemma observes_log (P : event -> Prop) (e : event) :
  P e → respects (observes P) (log e).
Proof. intros He w. repeat split. exists [e]. split; [reflexivity|]. auto. Qed.

Lemma observes_set_cache (P : event -> Prop) (c : option QdrantClient) :
  respects (observes P) (modify (set_cache c)).
Proof. intros w. repeat split. exists []. cbn. rewrite app_nil_r. auto. Qed.

Lemma respects_mapM_any (R : relation World) `{!PreOrder R} {A B}
    (f : A -> M B) (l : list A) :
  (∀ x, respects R (f x)) → respects R (mapM f l).
Proof.
  intros Hf. induction l as [|x l IH]; cbn [mapM]; respects_split; auto.
Qed.

Ltac observes_auto :=
  unfold st_error, st_info, st_render, st_stop, st_rerun, time_sleep, pass,
    os_getenv, session_getitem, session_get, not_found, dimension_error;
  repeat (respects_split;
          try first [ apply observes_set_cache | apply observes_log; exact I ]).

(** X4: listing and searching only look.  Whatever the arguments and
    however the call ends, [list_notes_from_db] leaves the server, the
    session, the secrets and the environment as they were; all it sends are
    scroll and search requests and the embedding request for the query. *)
Theorem list_notes_only_looks
    (query : option string) (offset limit : N) (w : World) :
  observes lookup_effect w (list_notes_from_db query offset limit w).2.
Proof.
  revert w. change (respects (observes lookup_effect)
                      (list_notes_from_db query offset limit)).
  unfold list_notes_from_db.
  respects_seq; [unfold get_qdrant_client; observes_auto|intros c].
  respects_seq.
  - destruct (negb _).
    + unfold scroll, request. observes_auto.
    + unfold search, request, get_embeddings, get_openai_client. observes_auto.
  - intros notes. apply respects_mapM_any; [exact _|]. intros note.
    unfold payload_getitem, note_score. observes_auto.
Qed.

(** X5: transcription touches nothing else.  Whatever the argument and
    however the provider answers, [transcribe_audio] leaves the server, the
    session, the secrets and the environment as they were; all it does is
    send at most the transcription request and show at most an error. *)
Theorem transcribe_audio_only_transcribes (audio : pyval) (w : World) :
  observes transcription_effect w (transcribe_audio audio w).2.
Proof.
  revert w. change (respects (observes transcription_effect) (transcribe_audio audio)).
  unfold transcribe_audio, get_openai_client, bytes_io. observes_auto.
Qed.

(** X6: the connection test fails on every server.  [QdrantClient] has
    no [get_health], so in every world, whether the server can be reached or
    not, [test_qdrant_connection] catches the attribute error, shows it as a
    connection error and returns [False]; it sends no request and changes
    nothing else. *)
Theorem test_qdrant_connection_always_fails (w : World) :
  ∃ w',
    test_qdrant_connection w = (Ret false, w') ∧
    trace w' =
      (trace w ++
         [StError "Nie udało się połączyć z Qdrant: 'QdrantClient' object has no attribute 'get_health'"])%list ∧
    observes error_effect w w'.
Proof.
  assert (observes error_effect w (test_qdrant_connection w).2) as Hobs.
  { revert w. change (respects (observes error_effect) test_qdrant_connection).
    unfold test_qdrant_connection, get_qdrant_client, get_health.
    observes_auto. }
  destruct (get_qdrant_client_run w) as [c Hc].
  unfold test_qdrant_connection in *. rewrite run_try, run_bind, Hc in *.
  cbv beta iota in *.
  eexists. split; [reflexivity|]. split; [reflexivity|exact Hobs].
Qed.

(** X7: the client is built once.  After a first call of
    [get_qdrant_client], every later call returns the same client without
    any effect, whatever has changed in the environment or elsewhere in the
    meantime, as long as the cache is kept. *)
Theorem qdrant_client_built_once (w : World) :
  ∃ c w1,
    get_qdrant_client w = (Ret c, w1) ∧
    ∀ w2, client_cache w2 = client_cache w1 → get_qdrant_client w2 = (Ret c, w2).
Proof.
  destruct (get_qdrant_client_run w) as [c Hc].
  exists c. eexists. split; [exact Hc|].
  intros w2 Hcache. apply get_qdrant_client_cached. exact Hcache.
Qed.

(** ** Embedding and transcription failures *)

(** X8: embedding errors are not caught.  When the provider answers the
    embedding request with an error, [get_embeddings] raises that error and
    shows nothing; [add_note_to_db] then raises it after the count request
    and before any upsert; and a search raises it before any search
    request. *)
Theorem embedding_errors_propagate (w : World) (key : pyval) (text : string) (e : exn) :
  session_state w !! "openai_api_key" = Some key →
  embeddings_create (openai w) key text = Err e →
  get_embeddings text w = (Raise e, emit (Embed text) w) ∧
  (∀ col, srv_down (server w) = None →
          srv_collections (server w) !! QDRANT_COLLECTION_NAME = Some col →
          ∃ c, add_note_to_db text w = (Raise e, emit (Embed text) (counted c w))) ∧
  (text ≠ EmptyString → ∀ offset limit,
     ∃ c, list_notes_from_db (Some text) offset limit w =
            (Raise e, emit (Embed text) (set_cache (Some c) w))).
Proof.
  intros Hk He.
  assert (∀ w', session_state w' !! "openai_api_key" = Some key →
                openai w' = openai w →
                get_embeddings text w' = (Raise e, emit (Embed text) w')) as Hfail.
  { intros w' Hk' Ho. unfold get_embeddings, get_openai_client.
    run_with (session_getitem_run w' _ key Hk').
    unfold_monad. rewrite Ho, He. reflexivity. }
  split; [apply Hfail; auto|]. split.
  - intros col Hd Hcol. unfold add_note_to_db.
    destruct (get_qdrant_client_run w) as [c Hc]. exists c. run_with Hc.
    rewrite run_bind, (count_run _ _ _ col) by assumption. cbv beta iota.
    rewrite run_bind, Hfail by (world_simpl; auto). reflexivity.
  - intros Hne offset limit. unfold list_notes_from_db.
    destruct (get_qdrant_client_run w) as [c Hc]. exists c. run_with Hc.
    cbn [from_option truthy].
    rewrite (proj2 (String.eqb_neq text EmptyString) Hne). cbn [negb default].
    rewrite run_bind, run_bind, Hfail by (world_simpl; auto). reflexivity.
Qed.

Lemma embedding_errors_propagate_witness :
  get_embeddings "buy milk" failing_world =
    (Raise (Exn OpenAIError "429 insufficient_quota"),
     emit (Embed "buy milk") failing_world).
Proof.
  apply (embedding_errors_propagate failing_world (PyStr "sk-test") "buy milk"
           (Exn OpenAIError "429 insufficient_quota")); reflexivity.
Defined.

(** X9: without an API key in the session, [transcribe_audio] does not
    contact the provider: the missing key is shown as a transcription
    failure and the result is the empty string.  With a key and a provider
    that answers, the result is the provider's text and nothing is shown. *)
Theorem transcribe_audio_key_and_answer (w : World) (audio : bytes) :
  (session_state w !! "openai_api_key" = None →
   transcribe_audio (PyBytes audio) w =
     (Ret EmptyString,
      emit (StError "Nie udało się przetworzyć audio: 'openai_api_key'") w)) ∧
  (∀ key text,
     session_state w !! "openai_api_key" = Some key →
     transcriptions_create (openai w) key audio = Ok text →
     transcribe_audio (PyBytes audio) w = (Ret text, emit (Transcribe audio) w)).
Proof.
  split.
  - intros Hk. unfold transcribe_audio, get_openai_client, bytes_io.
    unfold_monad. rewrite Hk. reflexivity.
  - intros key text Hk Ht. unfold transcribe_audio, get_openai_client, bytes_io.
    unfold_monad. rewrite Hk. cbn. rewrite Ht. reflexivity.
Qed.

Lemma transcribe_audio_key_and_answer_witness :
  transcribe_audio (PyBytes [x49; x44; x33]%byte) (world_of ∅ ∅) =
    (Ret EmptyString,
     emit (StError "Nie udało się przetworzyć audio: 'openai_api_key'") (world_of ∅ ∅)) ∧
  transcribe_audio (PyBytes [x49; x44; x33]%byte) empty_store_world =
    (Ret "hello", emit (Transcribe [x49; x44; x33]%byte) empty_store_world).
Proof.
  split.
  - apply (proj1 (transcribe_audio_key_and_answer (world_of ∅ ∅) [x49; x44; x33]%byte)).
    reflexivity.
  - apply (proj2 (transcribe_audio_key_and_answer empty_store_world [x49; x44; x33]%byte)
             (PyStr "sk-test") "hello"); reflexivity.
Defined.

(** ** The collection the assurance leaves behind *)

(** X10: a missing collection is never created.  On a server that can be
    reached and has no [notes] collection, the assurance returns without
    creating it (it never gets past the health probe), and
    [add_note_to_db] then raises the server's "not found" error at the
    count request, storing nothing. *)
Theorem missing_collection_is_never_created (w : World) (text : string) :
  srv_down (server w) = None →
  srv_collections (server w) !! QDRANT_COLLECTION_NAME = None →
  ∃ w1 w2,
    assure_db_collection_exists w = (Ret tt, w1) ∧
    srv_collections (server w1) !! QDRANT_COLLECTION_NAME = None ∧
    add_note_to_db text w1 =
      (Raise (Exn UnexpectedResponse
                "404 (Not Found): Collection `notes` doesn't exist!"), w2) ∧
    srv_collections (server w2) = srv_collections (server w).
Proof.
  intros Hd Hcol. destruct (assure_run w) as [c Hrun].
  eexists. eexists. split; [exact Hrun|]. split; [exact Hcol|].
  match goal with |- add_note_to_db _ ?w1 = _ ∧ _ =>
    assert (get_qdrant_client w1 = (Ret c, w1)) as Hc
      by (apply get_qdrant_client_cached; reflexivity)
  end.
  unfold add_note_to_db. run_with Hc.
  rewrite run_bind. unfold count. rewrite request_up by exact Hd.
  world_simpl. rewrite Hcol. split; reflexivity.
Qed.

Lemma missing_collection_is_never_created_witness :
  ∃ w1 w2,
    assure_db_collection_exists (keyed_world idle_server tiny_provider) = (Ret tt, w1) ∧
    srv_collections (server w1) !! QDRANT_COLLECTION_NAME = None ∧
    add_note_to_db "buy milk" w1 =
      (Raise (Exn UnexpectedResponse
                "404 (Not Found): Collection `notes` doesn't exist!"), w2) ∧
    srv_collections (server w2) = ∅.
Proof.
  apply (missing_collection_is_never_created (keyed_world idle_server tiny_provider)
           "buy milk"); reflexivity.
Defined.

(** X11: a [notes] collection of another vector size passes the assurance
    and then rejects every note: after the assurance, [add_note_to_db] with
    an embedding whose length differs from the collection's size raises the
    server's dimension error, and the stored collections are as they
    were. *)
Theorem mismatched_collection_rejects_notes
    (w : World) (col : Collection) (key : pyval) (text : string) (v : list float64) :
  srv_down (server w) = None →
  srv_collections (server w) !! QDRANT_COLLECTION_NAME = Some col →
  session_state w !! "openai_api_key" = Some key →
  embeddings_create (openai w) key text = Ok v →
  N.of_nat (length v) ≠ coll_size col →
  ∃ w1 w2,
    assure_db_collection_exists w = (Ret tt, w1) ∧
    add_note_to_db text w1 =
      (Raise (Exn UnexpectedResponse
                "400 (Bad Request): Wrong input: Vector dimension error"), w2) ∧
    srv_collections (server w2) = srv_collections (server w).
Proof.
  intros Hd Hcol Hk Hv Hlen.
  destruct (assure_run w) as [c Hrun].
  eexists. eexists. split; [exact Hrun|].
  match goal with |- add_note_to_db _ ?w1 = _ ∧ _ =>
    assert (get_qdrant_client w1 = (Ret c, w1)) as Hc
      by (apply get_qdrant_client_cached; reflexivity)
  end.
  unfold add_note_to_db. run_with Hc.
  rewrite run_bind, (count_run _ _ _ col) by assumption. cbv beta iota.
  rewrite run_bind, (get_embeddings_run _ key _ v) by assumption. cbv beta iota.
  unfold upsert. rewrite request_up by exact Hd. world_simpl. rewrite Hcol.
  cbn [forallb point_vector]. unfold dimension_ok.
  rewrite bool_decide_eq_false_2 by exact Hlen. cbn [andb].
  split; reflexivity.
Qed.

Lemma mismatched_collection_rejects_notes_witness :
  ∃ w1 w2,
    assure_db_collection_exists five_wide_world = (Ret tt, w1) ∧
    add_note_to_db "buy milk" w1 =
      (Raise (Exn UnexpectedResponse
                "400 (Bad Request): Wrong input: Vector dimension error"), w2) ∧
    srv_collections (server w2) = {["notes" := mkCollection 5 DOT ∅]}.
Proof.
  apply (mismatched_collection_rejects_notes five_wide_world (mkCollection 5 DOT ∅)
           (PyStr "sk-test") "buy milk" [8%Z; 7%Z]); try reflexivity.
  discriminate.
Defined.

(** ** What listing and searching return *)

(** X12: the unfiltered listing returns the empty list when there is
    nothing to list: with the server up and the [notes] collection in
    place, if no stored identifier reaches the offset (in particular if the
    collection is empty), [list_notes_from_db] without a query, or with the
    empty query, returns [[]] after one scroll request. *)
Theorem listing_nothing_returns_empty
    (w : World) (col : Collection) (query : option string) (offset limit : N) :
  srv_down (server w) = None →
  srv_collections (server w) !! QDRANT_COLLECTION_NAME = Some col →
  (∀ i, is_Some (coll_points col !! i) → (i < offset)%N) →
  query = None ∨ query = Some EmptyString →
  ∃ c, list_notes_from_db query offset limit w =
         (Ret [],
          emit (Qdrant (Scroll QDRANT_COLLECTION_NAME limit offset))
               (set_cache (Some c) w)).
Proof.
  intros Hd Hcol Hbelow Hquery. unfold list_notes_from_db.
  destruct (get_qdrant_client_run w) as [c Hc]. exists c. run_with Hc.
  assert (negb (truthy (from_option PyStr PyNone query)) = true) as ->
    by (destruct Hquery as [->| ->]; reflexivity).
  rewrite run_bind, run_bind.
  rewrite (scroll_run _ _ _ _ _ col) by assumption. cbv beta iota.
  assert (filter (λ p : N * Stored, (offset ≤ p.1)%N) (by_id (coll_points col)) = [])
    as ->.
  { apply elem_of_nil_inv. intros [i x] [Hle Hin]%list_elem_of_filter.
    unfold by_id in Hin. rewrite merge_sort_Permutation in Hin.
    apply elem_of_map_to_list in Hin. cbn in Hle.
    assert (i < offset)%N by (apply Hbelow; eauto). lia. }
  rewrite take_nil. reflexivity.
Qed.

Lemma listing_nothing_returns_empty_witness :
  ∃ c, list_notes_from_db None 0 10 empty_store_world =
         (Ret [],
          emit (Qdrant (Scroll QDRANT_COLLECTION_NAME 10 0))
               (set_cache (Some c) empty_store_world)).
Proof.
  apply (listing_nothing_returns_empty empty_store_world (mkCollection 2 COSINE ∅)
           None 0 10); try reflexivity.
  - intros i [x Hx]. cbn [coll_points] in Hx. rewrite lookup_empty in Hx. discriminate.
  - left. reflexivity.
Defined.

(** Entries for a page of scored points that all carry a text. *)
Lemma scored_page_entries (page : list ScoredPoint) (w : World) :
  Forall (λ p, is_Some (scored_payload p !! "text")) page →
  ∃ l,
    mapM (λ note,
            text ← payload_getitem (note_payload note) "text";
            score ← note_score note;
            ret (mkResult text score))
         (AScored <$> page) w = (Ret l, w) ∧
    Forall2 (λ p r, scored_payload p !! "text" = Some (res_text r) ∧
                    res_score r = Some (scored_score p)) page l.
Proof.
  induction 1 as [|p page [text Ht] _ (l & Hl & Hall)].
  - exists []. split; [reflexivity|constructor].
  - exists (mkResult text (Some (scored_score p)) :: l). split.
    + cbn [fmap list_fmap mapM]. rewrite run_bind, run_bind.
      unfold payload_getitem at 1. cbn [note_payload]. rewrite Ht.
      unfold ret at 1. cbv beta iota.
      rewrite run_bind. cbn [note_score]. unfold ret at 1. cbv beta iota.
      unfold ret at 1. cbv beta iota.
      rewrite run_bind. change (list_fmap _ _ AScored page) with (AScored <$> page).
      rewrite Hl. reflexivity.
    + constructor; [split; [exact Ht|reflexivity]|exact Hall].
Qed.

(** X13: a search returns the page of the server's ranking, entry by
    entry.  With the server up, the collection in place, an API key, a
    query that is not empty, an embedding of the collection's size and a
    text in every point of the page, [list_notes_from_db] returns one entry
    per point of the page (the ranking cut to [limit] points after
    [offset]), each with the point's text and the point's score, never
    [None]; so it returns at most [limit] entries. *)
Theorem search_returns_scored_page
    (w : World) (col : Collection) (key : pyval) (query : string)
    (v : list float64) (offset limit : N) :
  srv_down (server w) = None →
  srv_collections (server w) !! QDRANT_COLLECTION_NAME = Some col →
  session_state w !! "openai_api_key" = Some key →
  query ≠ EmptyString →
  embeddings_create (openai w) key query = Ok v →
  N.of_nat (length v) = coll_size col →
  Forall (λ p, is_Some (scored_payload p !! "text"))
    (take (N.to_nat limit)
       (drop (N.to_nat offset) (srv_rank (server w) (map_to_list (coll_points col)) v))) →
  ∃ l w',
    list_notes_from_db (Some query) offset limit w = (Ret l, w') ∧
    Forall2 (λ p r, scored_payload p !! "text" = Some (res_text r) ∧
                    res_score r = Some (scored_score p))
      (take (N.to_nat limit)
         (drop (N.to_nat offset) (srv_rank (server w) (map_to_list (coll_points col)) v)))
      l ∧
    (length l ≤ N.to_nat limit)%nat.
Proof.
  intros Hd Hcol Hk Hne Hv Hlen Htexts. unfold list_notes_from_db.
  destruct (get_qdrant_client_run w) as [c Hc]. run_with Hc.
  cbn [from_option truthy].
  rewrite (proj2 (String.eqb_neq query EmptyString) Hne). cbn [negb default].
  rewrite run_bind, run_bind, (get_embeddings_run _ key _ v) by assumption.
  cbv beta iota. rewrite run_bind. unfold search.
  rewrite request_up by exact Hd. world_simpl. rewrite Hcol.
  unfold dimension_ok. rewrite bool_decide_eq_true_2 by exact Hlen.
  unfold ret at 1. cbv beta iota. unfold ret at 1. cbv beta iota.
  match goal with |- context [mapM _ _ ?w1] =>
    destruct (scored_page_entries _ w1 Htexts) as (l & Hl & Hall)
  end.
  exists l. eexists. split; [exact Hl|]. split; [exact Hall|].
  rewrite <- (Forall2_length _ _ _ Hall), length_take. lia.
Qed.

Lemma search_returns_scored_page_witness :
  ∃ l w',
    list_notes_from_db (Some "milk") 0 1 scoring_world = (Ret l, w') ∧
    Forall2 (λ p r, scored_payload p !! "text" = Some (res_text r) ∧
                    res_score r = Some (scored_score p))
      (take (N.to_nat 1)
         (drop (N.to_nat 0) (first_component_rank (map_to_list three_notes) [4%Z; 7%Z])))
      l ∧
    (length l ≤ N.to_nat 1)%nat.
Proof.
  apply (search_returns_scored_page scoring_world (mkCollection 2 COSINE three_notes)
           (PyStr "sk-test") "milk" [4%Z; 7%Z] 0 1); try reflexivity.
  - discriminate.
  - vm_compute. repeat constructor. eexists. reflexivity.
Defined.

(** ** Credential onboarding and session initialisation *)

(** X14: past the credential check the session holds a key.  In every
    world and for every input, [check_api_key] either returns with a truthy
    value under [openai_api_key] in the session, or stops or reruns the
    script; it never raises. *)
Theorem check_api_key_leaves_a_key (inp : Inputs) (w : World) :
  match check_api_key inp w with
  | (Ret _, w') =>
      ∃ v, session_state w' !! "openai_api_key" = Some v ∧ truthy v = true
  | (Raise _, _) => False
  | (Halt _, _) => True
  end.
Proof.
  unfold check_api_key. unfold_monad.
  destruct (session_state w !! "openai_api_key") as [v|] eqn:Hs; cbn.
  - destruct (truthy v) eqn:Ht; cbn.
    + rewrite Hs. cbn. rewrite Ht. cbn. eauto.
    + destruct (environ w !! "OPENAI_API_KEY") as [k|]; cbn;
        rewrite lookup_insert_eq; cbn.
      * destruct (negb (k =? EmptyString)%string) eqn:Hk; cbn; [|exact I].
        exists (PyStr k). rewrite lookup_insert_eq. auto.
      * destruct (negb (in_api_key inp =? EmptyString)%string) eqn:Hi; cbn; auto.
        rewrite lookup_insert_eq. cbn. rewrite Hi. exact I.
  - destruct (environ w !! "OPENAI_API_KEY") as [k|]; cbn;
      rewrite lookup_insert_eq; cbn.
    + destruct (negb (k =? EmptyString)%string) eqn:Hk; cbn; [|exact I].
      exists (PyStr k). rewrite lookup_insert_eq. auto.
    + destruct (negb (in_api_key inp =? EmptyString)%string) eqn:Hi; cbn; auto.
      rewrite lookup_insert_eq. cbn. rewrite Hi. exact I.
Qed.

Lemma check_api_key_from_environment (inp : Inputs) (w : World) (k : string) :
  truthy (default PyNone (session_state w !! "openai_api_key")) = false →
  environ w !! "OPENAI_API_KEY" = Some k →
  check_api_key inp w =
    (if truthy (PyStr k) then Ret tt else Halt StopScript,
     emit (SessionSet "openai_api_key" (PyStr k))
          (set_session (insert "openai_api_key" (PyStr k)) w)).
Proof.
  intros Hs Hk. unfold check_api_key. unfold_monad. rewrite Hs. cbn.
  rewrite Hk. cbn. rewrite lookup_insert_eq. cbn.
  destruct (negb (k =? EmptyString)%string); reflexivity.
Qed.

Lemma check_api_key_from_input (inp : Inputs) (w : World) :
  truthy (default PyNone (session_state w !! "openai_api_key")) = false →
  environ w !! "OPENAI_API_KEY" = None →
  check_api_key inp w =
    (Halt (if truthy (PyStr (in_api_key inp)) then RerunScript else StopScript),
     emit (SessionSet "openai_api_key" (PyStr (in_api_key inp)))
          (set_session (insert "openai_api_key" (PyStr (in_api_key inp)))
             (emit (StInfo "Dodaj swój klucz API OpenAI aby móc korzystać z tej aplikacji")
                w))).
Proof.
  intros Hs Hk. unfold check_api_key. unfold_monad. rewrite Hs. cbn.
  rewrite Hk. cbn. rewrite lookup_insert_eq. cbn.
  destruct (negb (in_api_key inp =? EmptyString)%string) eqn:Hi; cbn; [reflexivity|].
  rewrite lookup_insert_eq. cbn. rewrite Hi. reflexivity.
Qed.

(** X15: onboarding of the API key, when the session holds none (or an
    empty one).  If the environment has [OPENAI_API_KEY], its value is put
    into the session and the script goes on, unless the value is empty:
    then the script stops, without asking the user.  If the environment has
    no such variable, the user is asked; the content of the field is put
    into the session, and the script reruns when it is not empty and stops
    when it is. *)
Theorem check_api_key_onboarding (inp : Inputs) (w : World) :
  truthy (default PyNone (session_state w !! "openai_api_key")) = false →
  (∀ k, environ w !! "OPENAI_API_KEY" = Some k →
     check_api_key inp w =
       (if truthy (PyStr k) then Ret tt else Halt StopScript,
        emit (SessionSet "openai_api_key" (PyStr k))
             (set_session (insert "openai_api_key" (PyStr k)) w))) ∧
  (environ w !! "OPENAI_API_KEY" = None →
     check_api_key inp w =
       (Halt (if truthy (PyStr (in_api_key inp)) then RerunScript else StopScript),
        emit (SessionSet "openai_api_key" (PyStr (in_api_key inp)))
             (set_session (insert "openai_api_key" (PyStr (in_api_key inp)))
                (emit (StInfo "Dodaj swój klucz API OpenAI aby móc korzystać z tej aplikacji")
                   w)))).
Proof.
  intros Hs. split.
  - intros k Hk. apply check_api_key_from_environment; assumption.
  - intros Hk. apply check_api_key_from_input; assumption.
Qed.

Lemma check_api_key_onboarding_witness :
  (check_api_key idle_visit (world_of ∅ {["OPENAI_API_KEY" := EmptyString]})).1
    = Halt StopScript ∧
  (check_api_key (mkInputs "sk-typed" None false None false) (world_of ∅ ∅)).1
    = Halt RerunScript.
Proof.
  split.
  - destruct (check_api_key_onboarding idle_visit
                (world_of ∅ {["OPENAI_API_KEY" := EmptyString]})) as [Henv _];
      [reflexivity|].
    rewrite (Henv EmptyString) by reflexivity. reflexivity.
  - destruct (check_api_key_onboarding (mkInputs "sk-typed" None false None false)
                (world_of ∅ ∅)) as [_ Hask]; [reflexivity|].
    rewrite Hask by reflexivity. reflexivity.
Defined.

(** X16: without an API key nothing is contacted.  When neither the
    session nor the environment has a key, a run of the script ends at the
    credential check (rerun after a key was typed, stop otherwise): it has
    rendered the page configuration, the request for the key and stored the
    field's content, and has sent no request to the vector store or to the
    provider; the server is as it was. *)
Theorem script_without_key_contacts_nothing
    (md5_hexdigest : bytes -> string) (inp : Inputs) (w : World) :
  truthy (default PyNone (session_state w !! "openai_api_key")) = false →
  environ w !! "OPENAI_API_KEY" = None →
  ∃ w',
    script md5_hexdigest inp w =
      (Halt (if truthy (PyStr (in_api_key inp)) then RerunScript else StopScript), w') ∧
    server w' = server w ∧
    trace w' =
      (trace w ++
         [StRender "set_page_config";
          StInfo "Dodaj swój klucz API OpenAI aby móc korzystać z tej aplikacji";
          SessionSet "openai_api_key" (PyStr (in_api_key inp))])%list ∧
    Forall (λ e, ¬ remote_effect e)
      [StRender "set_page_config";
       StInfo "Dodaj swój klucz API OpenAI aby móc korzystać z tej aplikacji";
       SessionSet "openai_api_key" (PyStr (in_api_key inp))].
Proof.
  intros Hs Hk. unfold script.
  rewrite run_bind. unfold st_render, log, modify. cbv beta iota.
  rewrite run_bind, check_api_key_from_input by assumption. cbv beta iota.
  eexists. split; [reflexivity|]. world_simpl. rewrite <- !app_assoc.
  split; [reflexivity|]. split; [reflexivity|].
  repeat constructor; intros [].
Qed.

Lemma script_without_key_contacts_nothing_witness :
  ∃ w',
    script plain_digest idle_visit (world_of ∅ ∅) =
      (Halt (if truthy (PyStr (in_api_key idle_visit)) then RerunScript else StopScript), w') ∧
    server w' = server (world_of ∅ ∅) ∧
    trace w' =
      (trace (world_of ∅ ∅) ++
         [StRender "set_page_config";
          StInfo "Dodaj swój klucz API OpenAI aby móc korzystać z tej aplikacji";
          SessionSet "openai_api_key" (PyStr (in_api_key idle_visit))])%list ∧
    Forall (λ e, ¬ remote_effect e)
      [StRender "set_page_config";
       StInfo "Dodaj swój klucz API OpenAI aby móc korzystać z tej aplikacji";
       SessionSet "openai_api_key" (PyStr (in_api_key idle_visit))].
Proof.
  apply (script_without_key_contacts_nothing plain_digest idle_visit (world_of ∅ ∅));
    reflexivity.
Defined.

Lemma init_key_spec (w : World) (key : string) (v : pyval) :
  ∃ w', init_key key v w = (Ret tt, w') ∧
        session_state w' !! key = Some (default v (session_state w !! key)) ∧
        (∀ k, k ≠ key → session_state w' !! k = session_state w !! k) ∧
        (is_Some (session_state w !! key) → w' = w).
Proof.
  unfold init_key. unfold_monad.
  destruct (session_state w !! key) as [x|] eqn:Hk.
  - exists w. cbn. auto.
  - eexists. split; [reflexivity|]. world_simpl. split; [apply lookup_insert_eq|].
    split; [intros k Hne; apply lookup_insert_ne; congruence|].
    intros [? ?]. discriminate.
Qed.

(** X17: the session initialisation keeps what is there.  [init_session]
    returns with every value of the session as it was; the four note keys
    that were missing get their defaults ([None] for the digest and the
    bytes, the empty string for the two texts); and running it again
    changes nothing at all. *)
Theorem init_session_keeps_values (w : World) :
  ∃ w',
    init_session w = (Ret tt, w') ∧
    (∀ k v, session_state w !! k = Some v → session_state w' !! k = Some v) ∧
    session_state w' !! "note_audio_bytes_md5"
      = Some (default PyNone (session_state w !! "note_audio_bytes_md5")) ∧
    session_state w' !! "note_audio_bytes"
      = Some (default PyNone (session_state w !! "note_audio_bytes")) ∧
    session_state w' !! "note_text"
      = Some (default (PyStr EmptyString) (session_state w !! "note_text")) ∧
    session_state w' !! "note_audio_text"
      = Some (default (PyStr EmptyString) (session_state w !! "note_audio_text")) ∧
    init_session w' = (Ret tt, w').
Proof.
  unfold init_session.
  destruct (init_key_spec w "note_audio_bytes_md5" PyNone) as (w1 & H1 & Hv1 & Ho1 & _).
  destruct (init_key_spec w1 "note_audio_bytes" PyNone) as (w2 & H2 & Hv2 & Ho2 & _).
  destruct (init_key_spec w2 "note_text" (PyStr EmptyString)) as (w3 & H3 & Hv3 & Ho3 & _).
  destruct (init_key_spec w3 "note_audio_text" (PyStr EmptyString))
    as (w4 & H4 & Hv4 & Ho4 & _).
  assert (session_state w4 !! "note_audio_bytes_md5"
          = Some (default PyNone (session_state w !! "note_audio_bytes_md5"))) as K1
    by (rewrite Ho4, Ho3, Ho2 by discriminate; exact Hv1).
  assert (session_state w4 !! "note_audio_bytes"
          = Some (default PyNone (session_state w !! "note_audio_bytes"))) as K2
    by (rewrite Ho4, Ho3 by discriminate; rewrite Hv2, Ho1 by discriminate; reflexivity).
  assert (session_state w4 !! "note_text"
          = Some (default (PyStr EmptyString) (session_state w !! "note_text"))) as K3
    by (rewrite Ho4 by discriminate; rewrite Hv3, Ho2, Ho1 by discriminate; reflexivity).
  assert (session_state w4 !! "note_audio_text"
          = Some (default (PyStr EmptyString) (session_state w !! "note_audio_text"))) as K4
    by (rewrite Hv4, Ho3, Ho2, Ho1 by discriminate; reflexivity).
  exists w4. split; [run_with H1; run_with H2; run_with H3; exact H4|].
  split.
  { intros k v Hk.
    assert (∀ wa wb key d,
              session_state wb !! key = Some (default d (session_state wa !! key)) →
              (∀ k', k' ≠ key → session_state wb !! k' = session_state wa !! k') →
              session_state wa !! k = Some v → session_state wb !! k = Some v) as Hstep.
    { intros wa wb key d Hkey Hoth Hka. destruct (decide (k = key)) as [->|Hne].
      - rewrite Hkey, Hka. reflexivity.
      - rewrite Hoth by exact Hne. exact Hka. }
    eapply Hstep; [exact Hv4|exact Ho4|].
    eapply Hstep; [exact Hv3|exact Ho3|].
    eapply Hstep; [exact Hv2|exact Ho2|].
    eapply Hstep; [exact Hv1|exact Ho1|exact Hk]. }
  do 4 (split; [assumption|]).
  destruct (init_key_spec w4 "note_audio_bytes_md5" PyNone) as (w5 & H5 & _ & _ & Hs5).
  rewrite (Hs5 ltac:(rewrite K1; eauto)) in H5.
  destruct (init_key_spec w4 "note_audio_bytes" PyNone) as (w6 & H6 & _ & _ & Hs6).
  rewrite (Hs6 ltac:(rewrite K2; eauto)) in H6.
  destruct (init_key_spec w4 "note_text" (PyStr EmptyString)) as (w7 & H7 & _ & _ & Hs7).
  rewrite (Hs7 ltac:(rewrite K3; eauto)) in H7.
  destruct (init_key_spec w4 "note_audio_text" (PyStr EmptyString))
    as (w8 & H8 & _ & _ & Hs8).
  rewrite (Hs8 ltac:(rewrite K4; eauto)) in H8.
  run_with H5. run_with H6. run_with H7. exact H8.
Qed.

(** ** The recording in the session *)

Lemma note_audio_captured_changed
    (md5_hexdigest : bytes -> string) (w : World) (audio : bytes) (stored : pyval) :
  session_state w !! "note_audio_bytes_md5" = Some stored →
  stored ≠ PyStr (md5_hexdigest audio) →
  note_audio_captured md5_hexdigest audio w =
    (Ret tt,
     wrote "note_audio_bytes_md5" (PyStr (md5_hexdigest audio))
       (wrote "note_text" (PyStr EmptyString)
          (wrote "note_audio_text" (PyStr EmptyString)
             (wrote "note_audio_bytes" (PyBytes audio) w)))).
Proof.
  intros Hs Hne. unfold note_audio_captured.
  rewrite run_bind, session_setitem_run. cbv beta iota.
  rewrite run_bind, (session_getitem_run _ _ (PyBytes audio))
    by (world_simpl; apply lookup_insert_eq).
  cbv beta iota. rewrite run_bind. cbn [md5]. unfold mret, M_ret, ret at 1. cbv beta iota.
  rewrite run_bind, (session_getitem_run _ _ stored)
    by (world_simpl; rewrite lookup_insert_ne by discriminate; exact Hs).
  cbv beta iota. rewrite bool_decide_eq_true_2 by assumption. reflexivity.
Qed.

Lemma note_audio_captured_same
    (md5_hexdigest : bytes -> string) (w : World) (audio : bytes) :
  session_state w !! "note_audio_bytes_md5" = Some (PyStr (md5_hexdigest audio)) →
  note_audio_captured md5_hexdigest audio w =
    (Ret tt, wrote "note_audio_bytes" (PyBytes audio) w).
Proof.
  intros Hs. unfold note_audio_captured.
  rewrite run_bind, session_setitem_run. cbv beta iota.
  rewrite run_bind, (session_getitem_run _ _ (PyBytes audio))
    by (world_simpl; apply lookup_insert_eq).
  cbv beta iota. rewrite run_bind. cbn [md5]. unfold mret, M_ret, ret at 1. cbv beta iota.
  rewrite run_bind, (session_getitem_run _ _ (PyStr (md5_hexdigest audio)))
    by (world_simpl; rewrite lookup_insert_ne by discriminate; exact Hs).
  cbv beta iota. rewrite bool_decide_eq_false_2 by tauto. reflexivity.
Qed.

(** X18: the stored digest is the digest of the stored recording.  After
    the audio handler has run on an initialised session, the session holds
    the new bytes under [note_audio_bytes] and their digest under
    [note_audio_bytes_md5], whether or not the digest had to be replaced. *)
Theorem stored_digest_matches_recording
    (md5_hexdigest : bytes -> string) (w : World) (audio : bytes) (stored : pyval) :
  session_state w !! "note_audio_bytes_md5" = Some stored →
  ∃ w',
    note_audio_captured md5_hexdigest audio w = (Ret tt, w') ∧
    session_state w' !! "note_audio_bytes" = Some (PyBytes audio) ∧
    session_state w' !! "note_audio_bytes_md5" = Some (PyStr (md5_hexdigest audio)).
Proof.
  intros Hs.
  destruct (decide (stored = PyStr (md5_hexdigest audio))) as [->|Hne].
  - eexists. split; [apply note_audio_captured_same, Hs|].
    unfold wrote. world_simpl. split; [apply lookup_insert_eq|].
    rewrite lookup_insert_ne by discriminate. exact Hs.
  - eexists. split; [apply (note_audio_captured_changed _ _ _ stored); assumption|].
    unfold wrote. world_simpl. split; [|apply lookup_insert_eq].
    rewrite !lookup_insert_ne by discriminate. apply lookup_insert_eq.
Qed.

Lemma stored_digest_matches_recording_witness :
  ∃ w',
    note_audio_captured plain_digest [x4e; x45; x57]%byte stale_world = (Ret tt, w') ∧
    session_state w' !! "note_audio_bytes" = Some (PyBytes [x4e; x45; x57]%byte) ∧
    session_state w' !! "note_audio_bytes_md5"
      = Some (PyStr (plain_digest [x4e; x45; x57]%byte)).
Proof.
  apply (stored_digest_matches_recording plain_digest stale_world
           [x4e; x45; x57]%byte (PyStr "old")).
  reflexivity.
Defined.

(** ** The add tab, run by run *)

Lemma st_render_run (what : string) (w : World) :
  st_render what w = (Ret tt, emit (StRender what) w).
Proof. reflexivity. Qed.

Lemma st_button_run (label : string) (pressed disabled : bool) (w : World) :
  st_button label pressed disabled w =
    (Ret (pressed && negb disabled), emit (StRender label) w).
Proof. reflexivity. Qed.

(** Look a key up in a session that was written to. *)
Ltac session_lookup :=
  unfold wrote; world_simpl;
  repeat first [ rewrite lookup_insert_eq
               | rewrite lookup_insert_ne by discriminate ];
  try reflexivity; try assumption.

(** X19: a new recording cannot be saved before it is transcribed.  In a
    run of the add tab in which the recording's digest differs from the
    stored one and the transcription button is not pressed, both texts end
    up empty, the editor and the save button are not even rendered, and no
    request is sent, whatever the user typed or pressed otherwise. *)
Theorem new_recording_cannot_be_saved
    (md5_hexdigest : bytes -> string) (inp : Inputs) (w : World)
    (audio : bytes) (stored : pyval) :
  in_note_audio inp = Some audio →
  in_transcribe inp = false →
  session_state w !! "note_audio_bytes_md5" = Some stored →
  stored ≠ PyStr (md5_hexdigest audio) →
  ∃ w',
    add_tab md5_hexdigest inp w = (Ret tt, w') ∧
    server w' = server w ∧
    session_state w' !! "note_audio_text" = Some (PyStr EmptyString) ∧
    session_state w' !! "note_text" = Some (PyStr EmptyString) ∧
    trace w' =
      (trace w ++
         [StRender "audiorecorder";
          SessionSet "note_audio_bytes" (PyBytes audio);
          SessionSet "note_audio_text" (PyStr EmptyString);
          SessionSet "note_text" (PyStr EmptyString);
          SessionSet "note_audio_bytes_md5" (PyStr (md5_hexdigest audio));
          StRender "audio";
          StRender "Transkrybuj audio"])%list.
Proof.
  intros Haudio Hpress Hs Hne. unfold add_tab.
  rewrite run_bind, st_render_run. cbv beta iota. rewrite Haudio.
  rewrite run_bind, (note_audio_captured_changed _ _ _ stored) by assumption.
  cbv beta iota.
  rewrite run_bind, st_render_run. cbv beta iota.
  rewrite run_bind, st_button_run, Hpress. cbv beta iota. cbn [andb].
  rewrite run_bind. unfold pass at 1, ret at 1. cbv beta iota.
  rewrite run_bind, (session_getitem_run _ _ (PyStr EmptyString)) by session_lookup.
  cbv beta iota. cbn [truthy String.eqb negb].
  rewrite run_bind. unfold pass at 1, ret at 1. cbv beta iota.
  unfold save_section.
  rewrite run_bind, (session_getitem_run _ _ (PyStr EmptyString)) by session_lookup.
  cbv beta iota. cbn [truthy String.eqb negb].
  rewrite run_bind. unfold ret at 1. cbv beta iota.
  eexists. split; [reflexivity|].
  split; [reflexivity|]. split; [session_lookup|]. split; [session_lookup|].
  unfold wrote. world_simpl. rewrite <- !app_assoc. reflexivity.
Qed.

Lemma new_recording_cannot_be_saved_witness :
  ∃ w',
    add_tab plain_digest
      (mkInputs EmptyString (Some [x4e; x45; x57]%byte) false
                (Some (mkEdit "stale transcript" "typed")) true)
      stale_world = (Ret tt, w') ∧
    server w' = server stale_world ∧
    session_state w' !! "note_audio_text" = Some (PyStr EmptyString) ∧
    session_state w' !! "note_text" = Some (PyStr EmptyString) ∧
    trace w' =
      (trace stale_world ++
         [StRender "audiorecorder";
          SessionSet "note_audio_bytes" (PyBytes [x4e; x45; x57]%byte);
          SessionSet "note_audio_text" (PyStr EmptyString);
          SessionSet "note_text" (PyStr EmptyString);
          SessionSet "note_audio_bytes_md5" (PyStr (plain_digest [x4e; x45; x57]%byte));
          StRender "audio";
          StRender "Transkrybuj audio"])%list.
Proof.
  apply (new_recording_cannot_be_saved plain_digest
           (mkInputs EmptyString (Some [x4e; x45; x57]%byte) false
                (Some (mkEdit "stale transcript" "typed")) true)
           stale_world [x4e; x45; x57]%byte (PyStr "old")); try reflexivity.
  discriminate.
Defined.

Lemma transcribe_audio_answered (w : World) (audio : bytes) (key : pyval) (text : string) :
  session_state w !! "openai_api_key" = Some key →
  transcriptions_create (openai w) key audio = Ok text →
  transcribe_audio (PyBytes audio) w = (Ret text, emit (Transcribe audio) w).
Proof.
  intros Hk Ht. unfold transcribe_audio, get_openai_client, bytes_io.
  unfold_monad. rewrite Hk. cbn. rewrite Ht. reflexivity.
Qed.

Lemma transcribe_audio_failed (w : World) (audio : bytes) (key : pyval) (e : exn) :
  session_state w !! "openai_api_key" = Some key →
  transcriptions_create (openai w) key audio = Err e →
  transcribe_audio (PyBytes audio) w =
    (Ret EmptyString,
     emit (StError ("Nie udało się przetworzyć audio: " +:+ exn_str e))
          (emit (Transcribe audio) w)).
Proof.
  intros Hk Ht. unfold transcribe_audio, get_openai_client, bytes_io.
  unfold_monad. rewrite Hk. cbn. rewrite Ht. reflexivity.
Qed.

(** X20: transcribing fills both texts.  In a run of the add tab on the
    recording already in the session, with the transcription button pressed
    and a provider that returns a transcript that is not empty, the session
    gets the transcript under [note_audio_text] and, under [note_text], what
    the editor returns for that transcript: the transcript itself, unless
    the user had typed into an editor that showed this very transcript, in
    which case what they typed.  An edit made on an earlier transcript is
    dropped.  When the text is not empty the save button is rendered, and as
    it is not pressed nothing is sent to the vector store. *)
Theorem transcription_fills_both_texts
    (md5_hexdigest : bytes -> string) (inp : Inputs) (w : World)
    (audio : bytes) (key : pyval) (text : string) :
  in_note_audio inp = Some audio →
  in_transcribe inp = true →
  in_save inp = false →
  session_state w !! "note_audio_bytes_md5" = Some (PyStr (md5_hexdigest audio)) →
  session_state w !! "openai_api_key" = Some key →
  transcriptions_create (openai w) key audio = Ok text →
  text ≠ EmptyString →
  editor_text text (in_edit inp) ≠ EmptyString →
  ∃ w',
    add_tab md5_hexdigest inp w = (Ret tt, w') ∧
    server w' = server w ∧
    session_state w' !! "note_audio_text" = Some (PyStr text) ∧
    session_state w' !! "note_text" = Some (PyStr (editor_text text (in_edit inp))) ∧
    trace w' =
      (trace w ++
         [StRender "audiorecorder";
          SessionSet "note_audio_bytes" (PyBytes audio);
          StRender "audio";
          StRender "Transkrybuj audio";
          Transcribe audio;
          SessionSet "note_audio_text" (PyStr text);
          StRender "Edytuj notatkę";
          SessionSet "note_text" (PyStr (editor_text text (in_edit inp)));
          StRender "Zapisz notatkę"])%list.
Proof.
  intros Haudio Hpress Hsave Hs Hk Ht Htext Hnote. unfold add_tab.
  rewrite run_bind, st_render_run. cbv beta iota. rewrite Haudio.
  rewrite run_bind, note_audio_captured_same by assumption. cbv beta iota.
  rewrite run_bind, st_render_run. cbv beta iota.
  rewrite run_bind, st_button_run, Hpress. cbv beta iota. cbn [andb negb].
  rewrite run_bind, run_bind, (session_getitem_run _ _ (PyBytes audio)) by session_lookup.
  cbv beta iota.
  rewrite run_bind, (transcribe_audio_answered _ _ key text)
    by (try session_lookup; assumption).
  cbv beta iota. rewrite session_setitem_run. fold (wrote "note_audio_text" (PyStr text)).
  cbv beta iota.
  rewrite run_bind, (session_getitem_run _ _ (PyStr text)) by session_lookup.
  cbv beta iota. cbn [truthy].
  rewrite (proj2 (String.eqb_neq text EmptyString) Htext). cbn [negb].
  rewrite run_bind, run_bind. unfold st_text_area, expect_str.
  rewrite run_bind, st_render_run. cbv beta iota.
  rewrite run_bind. unfold ret at 1. cbv beta iota. unfold ret at 1. cbv beta iota.
  rewrite session_setitem_run. cbv beta iota.
  unfold save_section.
  rewrite run_bind,
    (session_getitem_run _ _ (PyStr (editor_text text (in_edit inp)))) by session_lookup.
  cbv beta iota. cbn [truthy].
  rewrite (proj2 (String.eqb_neq _ EmptyString) Hnote). cbn [negb].
  rewrite run_bind, run_bind,
    (session_getitem_run _ _ (PyStr (editor_text text (in_edit inp)))) by session_lookup.
  cbv beta iota. cbn [truthy].
  rewrite (proj2 (String.eqb_neq _ EmptyString) Hnote). cbn [negb].
  rewrite st_button_run, Hsave. cbv beta iota. cbn [andb].
  eexists. split; [reflexivity|].
  split; [reflexivity|]. split; [session_lookup|]. split; [session_lookup|].
  unfold wrote. world_simpl. rewrite <- !app_assoc. reflexivity.
Qed.

Lemma transcription_fills_both_texts_witness :
  ∃ w',
    add_tab plain_digest
      (mkInputs EmptyString (Some [x49; x44; x33]%byte) true
                (Some (mkEdit "buy milk" "buy oat milk")) false)
      reedited_world = (Ret tt, w') ∧
    server w' = server reedited_world ∧
    session_state w' !! "note_audio_text" = Some (PyStr "hello") ∧
    session_state w' !! "note_text" = Some (PyStr "hello") ∧
    trace w' =
      (trace reedited_world ++
         [StRender "audiorecorder";
          SessionSet "note_audio_bytes" (PyBytes [x49; x44; x33]%byte);
          StRender "audio";
          StRender "Transkrybuj audio";
          Transcribe [x49; x44; x33]%byte;
          SessionSet "note_audio_text" (PyStr "hello");
          StRender "Edytuj notatkę";
          SessionSet "note_text" (PyStr "hello");
          StRender "Zapisz notatkę"])%list.
Proof.
  apply (transcription_fills_both_texts plain_digest
           (mkInputs EmptyString (Some [x49; x44; x33]%byte) true
                     (Some (mkEdit "buy milk" "buy oat milk")) false)
           reedited_world [x49; x44; x33]%byte (PyStr "sk-test") "hello");
    try reflexivity; discriminate.
Defined.

(** X21: a failed transcription empties the transcript but not the note.
    In a run of the add tab on the recording already in the session, with
    the transcription button pressed and a provider that fails, the error
    is shown and [note_audio_text] becomes empty, so the editor is not
    rendered; [note_text] keeps the text it had, and when that text is not
    empty the save button is rendered for it. *)
Theorem failed_transcription_keeps_note_text
    (md5_hexdigest : bytes -> string) (inp : Inputs) (w : World)
    (audio : bytes) (key : pyval) (e : exn) (note : string) :
  in_note_audio inp = Some audio →
  in_transcribe inp = true →
  in_save inp = false →
  session_state w !! "note_audio_bytes_md5" = Some (PyStr (md5_hexdigest audio)) →
  session_state w !! "openai_api_key" = Some key →
  session_state w !! "note_text" = Some (PyStr note) →
  note ≠ EmptyString →
  transcriptions_create (openai w) key audio = Err e →
  ∃ w',
    add_tab md5_hexdigest inp w = (Ret tt, w') ∧
    server w' = server w ∧
    session_state w' !! "note_audio_text" = Some (PyStr EmptyString) ∧
    session_state w' !! "note_text" = Some (PyStr note) ∧
    trace w' =
      (trace w ++
         [StRender "audiorecorder";
          SessionSet "note_audio_bytes" (PyBytes audio);
          StRender "audio";
          StRender "Transkrybuj audio";
          Transcribe audio;
          StError ("Nie udało się przetworzyć audio: " +:+ exn_str e);
          SessionSet "note_audio_text" (PyStr EmptyString);
          StRender "Zapisz notatkę"])%list.
Proof.
  intros Haudio Hpress Hsave Hs Hk Hn Hnote He. unfold add_tab.
  rewrite run_bind, st_render_run. cbv beta iota. rewrite Haudio.
  rewrite run_bind, note_audio_captured_same by assumption. cbv beta iota.
  rewrite run_bind, st_render_run. cbv beta iota.
  rewrite run_bind, st_button_run, Hpress. cbv beta iota. cbn [andb negb].
  rewrite run_bind, run_bind, (session_getitem_run _ _ (PyBytes audio)) by session_lookup.
  cbv beta iota.
  rewrite run_bind, (transcribe_audio_failed _ _ key e)
    by (try session_lookup; assumption).
  cbv beta iota. rewrite session_setitem_run.
  fold (wrote "note_audio_text" (PyStr EmptyString)). cbv beta iota.
  rewrite run_bind, (session_getitem_run _ _ (PyStr EmptyString)) by session_lookup.
  cbv beta iota. cbn [truthy String.eqb negb].
  rewrite run_bind. unfold pass at 1, ret at 1. cbv beta iota.
  unfold save_section.
  rewrite run_bind, (session_getitem_run _ _ (PyStr note)) by session_lookup.
  cbv beta iota. cbn [truthy].
  rewrite (proj2 (String.eqb_neq _ EmptyString) Hnote). cbn [negb].
  rewrite run_bind, run_bind, (session_getitem_run _ _ (PyStr note)) by session_lookup.
  cbv beta iota. cbn [truthy].
  rewrite (proj2 (String.eqb_neq _ EmptyString) Hnote). cbn [negb].
  rewrite st_button_run, Hsave. cbv beta iota. cbn [andb].
  eexists. split; [reflexivity|].
  split; [reflexivity|]. split; [session_lookup|]. split; [session_lookup|].
  unfold wrote. world_simpl. rewrite <- !app_assoc. reflexivity.
Qed.

Lemma failed_transcription_keeps_note_text_witness :
  ∃ w',
    add_tab plain_digest
      (mkInputs EmptyString (Some [x49; x44; x33]%byte) true None false)
      edited_world = (Ret tt, w') ∧
    server w' = server edited_world ∧
    session_state w' !! "note_audio_text" = Some (PyStr EmptyString) ∧
    session_state w' !! "note_text" = Some (PyStr "buy oat milk") ∧
    trace w' =
      (trace edited_world ++
         [StRender "audiorecorder";
          SessionSet "note_audio_bytes" (PyBytes [x49; x44; x33]%byte);
          StRender "audio";
          StRender "Transkrybuj audio";
          Transcribe [x49; x44; x33]%byte;
          StError ("Nie udało się przetworzyć audio: " +:+
                   exn_str (Exn OpenAIError "429 insufficient_quota"));
          SessionSet "note_audio_text" (PyStr EmptyString);
          StRender "Zapisz notatkę"])%list.
Proof.
  apply (failed_transcription_keeps_note_text plain_digest
           (mkInputs EmptyString (Some [x49; x44; x33]%byte) true None false)
           edited_world [x49; x44; x33]%byte (PyStr "sk-test")
           (Exn OpenAIError "429 insufficient_quota") "buy oat milk");
    try reflexivity; discriminate.
Defined.

Lemma qdrant_client_built_once_witness :
  ∃ c w1,
    get_qdrant_client (world_of ∅ local_environ) = (Ret c, w1) ∧
    get_qdrant_client (mkWorld ∅ ∅ ∅ (client_cache w1) down_server failing_provider [])
      = (Ret c, mkWorld ∅ ∅ ∅ (client_cache w1) down_server failing_provider []).
Proof.
  destruct (qdrant_client_built_once (world_of ∅ local_environ)) as (c & w1 & Hfirst & Hlater).
  exists c, w1. split; [exact Hfirst|]. apply Hlater. reflexivity.
Defined.
